(** * XRP Ledger payment simulator: a shallow embedding of
      [scripts/xrp_simulator.py] and the properties of its settlement flow.

    The script drives three kinds of collaborators: the ledger network
    (wallet creation, faucet, balance query, [submit_and_wait]), the wall
    clock and the console.  The embedding threads them through an explicit
    world; the network is an interface ([LedgerClient]) with two
    implementations used for concrete runs: a scripted client that replays
    canned replies, and an in-memory ledger that keeps balances. *)

From Stdlib Require Import ZArith String Ascii List Lia Bool.
From Stdlib Require Import DecimalString DecimalZ.
From stdpp Require Import base option list strings gmap.

Local Open Scope string_scope.
Local Open Scope list_scope.
Local Open Scope Z_scope.

(** ** Text *)

(** The newline character written [\n] in the script's literals. *)
Definition nl : string := String (ascii_of_nat 10) "".

(** [s * n] on Python strings. *)
Fixpoint str_mul (s : string) (n : nat) : string :=
  match n with
  | O => ""
  | S n' => s +:+ str_mul s n'
  end.

(** [str(n)] for a Python [int]: decimal digits, a leading [-] when
    negative. *)
Definition str_of_Z (z : Z) : string := NilZero.string_of_int (Z.to_int z).

(** [int(s)] restricted to plain decimal numerals; [None] stands for the
    [ValueError]. *)
Definition Z_of_str (s : string) : option Z :=
  Z.of_int <$> NilZero.int_of_string s.

(** A Python [str] whose content matters character by character is the
    list of its code points.  A well-formed one has every code point in
    [0 .. 0x10FFFF]; it may still hold surrogates. *)
Definition pystr := list Z.

Definition pystr_of_string (s : string) : pystr :=
  (fun a => Z.of_N (N_of_ascii a)) <$> list_ascii_of_string s.

Definition is_code_point (c : Z) : Prop := 0 <= c <= 1114111.

Definition is_surrogate (c : Z) : bool := (55296 <=? c) && (c <=? 57343).

(** Code points that UTF-8 can carry: the Unicode scalar values. *)
Definition is_scalar (c : Z) : Prop :=
  is_code_point c /\ is_surrogate c = false.

(** ** Python results *)

(** A raised exception, reduced to its class name and the text [{e}]
    prints.  Only subclasses of [Exception] are represented, which is what
    [except Exception] catches. *)
Record exn := Exception { exn_class : string; exn_msg : string }.

Inductive res (A : Type) : Type :=
| Ok (a : A)
| Raise (e : exn).
Arguments Ok {A} a.
Arguments Raise {A} e.

#[global] Instance res_ret : MRet res := fun A a => Ok a.
#[global] Instance res_bind : MBind res := fun A B f r =>
  match r with
  | Ok a => f a
  | Raise e => Raise e
  end.

(** ** [str.encode('utf-8')] and [bytes.hex()] *)

(** Bytes are integers in [0 .. 255]. *)
Definition utf8_encode_cp (c : Z) : res (list Z) :=
  if c <? 0 then Raise (Exception "ValueError" "not a code point")
  else if c <? 128 then Ok [c]
  else if c <? 2048 then Ok [192 + c / 64; 128 + c mod 64]
  else if is_surrogate c then
    Raise (Exception "UnicodeEncodeError" "surrogates not allowed")
  else if c <? 65536 then
    Ok [224 + c / 4096; 128 + (c / 64) mod 64; 128 + c mod 64]
  else if c <=? 1114111 then
    Ok [240 + c / 262144; 128 + (c / 4096) mod 64;
        128 + (c / 64) mod 64; 128 + c mod 64]
  else Raise (Exception "ValueError" "not a code point").

Fixpoint utf8_encode (s : pystr) : res (list Z) :=
  match s with
  | [] => Ok []
  | c :: s' =>
      bs ← utf8_encode_cp c;
      rest ← utf8_encode s';
      mret (bs ++ rest)
  end.

Definition hex_digit (n : Z) : ascii :=
  if n <? 10 then ascii_of_N (Z.to_N (48 + n)) else ascii_of_N (Z.to_N (87 + n)).

(** [bytes.hex()]: two lowercase digits per byte. *)
Fixpoint bytes_hex (bs : list Z) : string :=
  match bs with
  | [] => ""
  | b :: bs' => String (hex_digit (b / 16)) (String (hex_digit (b mod 16)) (bytes_hex bs'))
  end.

(** The readers a consumer of the memo applies: [bytes.fromhex] and
    [bytes.decode('utf-8')].  They are not part of the script; they give
    the meaning of "decoding the stored memo". *)
Definition hex_value (a : ascii) : option Z :=
  let n := Z.of_N (N_of_ascii a) in
  if (48 <=? n) && (n <=? 57) then Some (n - 48)
  else if (97 <=? n) && (n <=? 102) then Some (n - 87)
  else if (65 <=? n) && (n <=? 70) then Some (n - 55)
  else None.

Fixpoint bytes_fromhex (s : string) : option (list Z) :=
  match s with
  | "" => Some []
  | String hi (String lo s') =>
      h ← hex_value hi;
      l ← hex_value lo;
      bs ← bytes_fromhex s';
      Some ((h * 16 + l) :: bs)
  | String _ "" => None
  end.

Definition is_cont (b : Z) : bool := (128 <=? b) && (b <? 192).

(** A strict UTF-8 reader: rejects stray continuation bytes, overlong
    forms, surrogates and values above [0x10FFFF]. *)
Fixpoint utf8_decode (bs : list Z) : option pystr :=
  match bs with
  | [] => Some []
  | b0 :: r0 =>
      if (0 <=? b0) && (b0 <? 128) then cons b0 <$> utf8_decode r0
      else if (192 <=? b0) && (b0 <? 224) then
        match r0 with
        | b1 :: r1 =>
            let c := (b0 - 192) * 64 + (b1 - 128) in
            if is_cont b1 && (128 <=? c)
            then cons c <$> utf8_decode r1 else None
        | _ => None
        end
      else if (224 <=? b0) && (b0 <? 240) then
        match r0 with
        | b1 :: b2 :: r2 =>
            let c := (b0 - 224) * 4096 + (b1 - 128) * 64 + (b2 - 128) in
            if is_cont b1 && is_cont b2 && (2048 <=? c)
               && negb (is_surrogate c)
            then cons c <$> utf8_decode r2 else None
        | _ => None
        end
      else if (240 <=? b0) && (b0 <? 248) then
        match r0 with
        | b1 :: b2 :: b3 :: r3 =>
            let c := (b0 - 240) * 262144 + (b1 - 128) * 4096
                     + (b2 - 128) * 64 + (b3 - 128) in
            if is_cont b1 && is_cont b2 && is_cont b3
               && (65536 <=? c) && (c <=? 1114111)
            then cons c <$> utf8_decode r3 else None
        | _ => None
        end
      else None
  end.

(** Reading a memo slot back: hexadecimal to bytes, bytes to text. *)
Definition decode_hex_utf8 (s : string) : option pystr :=
  bytes_fromhex s ≫= utf8_decode.

#[global] Instance res_fmap : FMap res := fun A B f r =>
  match r with
  | Ok a => Ok (f a)
  | Raise e => Raise e
  end.

(** ** The ledger library (xrpl-py)

    xrpl-py is a dependency of the script, not part of it.  Its pure helpers
    are rendered by their documented numeric contract, on the values the
    script passes (whole numbers of XRP, integer drops); its network
    functions are the operations of [LedgerClient] below. *)

Definition DROPS_PER_XRP : Z := 1000000.
Definition MAX_XRP : Z := 100000000000.

(** [xrpl.utils.xrp_to_drops]: the amount in drops, as a decimal string;
    [XRPRangeException] outside [0 .. MAX_XRP]. *)
Definition xrp_to_drops (xrp : Z) : res string :=
  if xrp <? 0 then
    Raise (Exception "XRPRangeException" (str_of_Z xrp +:+ " is too small."))
  else if MAX_XRP <? xrp then
    Raise (Exception "XRPRangeException" (str_of_Z xrp +:+ " is too large."))
  else Ok (str_of_Z (xrp * DROPS_PER_XRP)).

(** A [Decimal] amount of XRP with its six decimals, kept as the number of
    millionths. *)
Record Decimal := mkDecimal { millionths : Z }.

(** [xrpl.utils.drops_to_xrp]. *)
Definition drops_to_xrp (drops : Z) : res Decimal :=
  if drops <? 0 then
    Raise (Exception "XRPRangeException" "Drops must be non-negative.")
  else if MAX_XRP * DROPS_PER_XRP <? drops then
    Raise (Exception "XRPRangeException" "Drops amount is too large.")
  else Ok (mkDecimal drops).

(** [str(d)] for such a [Decimal]: the six decimals are always shown. *)
Definition str_of_Decimal (d : Decimal) : string :=
  let frac := str_of_Z (millionths d mod DROPS_PER_XRP) in
  str_of_Z (millionths d / DROPS_PER_XRP) +:+ "."
  +:+ str_mul "0" (6 - String.length frac) +:+ frac.

(** [datetime.fromtimestamp]: defined for the years 1 to 9999.  The local
    calendar rendering is left out: the moment is shown by its POSIX
    timestamp. *)
Definition datetime_fromtimestamp (ts : Z) : res string :=
  if (ts <? -62135596800) || (253402300799 <? ts) then
    Raise (Exception "ValueError" "year is out of range")
  else Ok ("<" +:+ str_of_Z ts +:+ ">").

(** ** Data model

    [Wallet], [Payment] and [EscrowCreate] are classes of xrpl-py; they are
    records of the fields the script reads or sets, and building one is
    plain record construction. *)

Record Wallet := mkWallet { classic_address : string; seed : string }.

Record Memo := mkMemo { MemoData : string; MemoType : string }.

Module Payment.
Record t := mk {
  account : string;
  destination : string;
  amount : string;
  memos : option (list Memo) }.
Definition set_memos (tx : t) (ms : list Memo) : t :=
  mk (account tx) (destination tx) (amount tx) (Some ms).
End Payment.

Module EscrowCreate.
Record t := mk {
  account : string;
  destination : string;
  amount : string;
  finish_after : Z;
  memos : option (list Memo) }.
Definition set_memos (tx : t) (ms : list Memo) : t :=
  mk (account tx) (destination tx) (amount tx) (finish_after tx) (Some ms).
End EscrowCreate.

Inductive Transaction :=
| TxPayment (tx : Payment.t)
| TxEscrowCreate (tx : EscrowCreate.t).

Definition tx_account (tx : Transaction) : string :=
  match tx with
  | TxPayment p => Payment.account p
  | TxEscrowCreate e => EscrowCreate.account e
  end.

Definition tx_destination (tx : Transaction) : string :=
  match tx with
  | TxPayment p => Payment.destination p
  | TxEscrowCreate e => EscrowCreate.destination e
  end.

Definition tx_amount (tx : Transaction) : string :=
  match tx with
  | TxPayment p => Payment.amount p
  | TxEscrowCreate e => EscrowCreate.amount e
  end.

Definition tx_memos (tx : Transaction) : option (list Memo) :=
  match tx with
  | TxPayment p => Payment.memos p
  | TxEscrowCreate e => EscrowCreate.memos e
  end.

(** [response.result] of [submit_and_wait], by the keys the script reads:
    [meta.TransactionResult], [hash], [validated]; [result_repr] is the
    text [{response.result}] prints. *)
Record Response := mkResponse {
  TransactionResult : option string;
  result_hash : option string;
  validated : option bool;
  result_repr : string }.

(** The requests that leave the process, in the order they are made. *)
Inductive NetCall :=
| CallFaucet (address : string)
| CallBalance (address : string)
| CallSubmit (tx : Transaction) (signer : Wallet).

(** The content handed to [json.dump]: role, address, seed. *)
Definition WalletData := list (string * (string * string)).

(** ** The world and the monad of the script *)

Record World (L : Type) := mkWorld {
  clock : Z;                            (* int(time.time()) *)
  console : list string;                (* one entry per print *)
  calls : list NetCall;
  files : list (string * WalletData);
  net : L }.
Arguments mkWorld {L}.
Arguments clock {L}.
Arguments console {L}.
Arguments calls {L}.
Arguments files {L}.
Arguments net {L}.

(** A statement either completes with a value or raises; the world it
    leaves behind is kept in both cases. *)
Definition Py (L A : Type) : Type := World L -> res A * World L.

#[global] Instance Py_ret {L} : MRet (Py L) := fun A a w => (Ok a, w).
#[global] Instance Py_bind {L} : MBind (Py L) := fun A B f m w =>
  match m w with
  | (Ok a, w') => f a w'
  | (Raise e, w') => (Raise e, w')
  end.

(** [try: body except Exception as e: handler]. *)
Definition try_except {L A} (body : Py L A) (handler : exn -> Py L A) : Py L A :=
  fun w =>
    match body w with
    | (Ok a, w') => (Ok a, w')
    | (Raise e, w') => handler e w'
    end.

Definition lift {L A} (r : res A) : Py L A := fun w => (r, w).

Definition print {L} (line : string) : Py L unit := fun w =>
  (Ok tt, mkWorld (clock w) (console w ++ [line]) (calls w) (files w) (net w)).

Definition time_time {L} : Py L Z := fun w => (Ok (clock w), w).

Definition time_sleep {L} (secs : Z) : Py L unit := fun w =>
  (Ok tt, mkWorld (clock w + secs) (console w) (calls w) (files w) (net w)).

Definition json_dump_to {L} (name : string) (data : WalletData) : Py L unit :=
  fun w =>
    (Ok tt, mkWorld (clock w) (console w) (calls w) (files w ++ [(name, data)]) (net w)).

(** The network boundary: what the ledger node, the faucet and the wallet
    generator answer, as transitions of an environment state. *)
Class LedgerClient (L : Type) := {
  net_new_wallet : L -> Wallet * L;
  net_faucet : string -> L -> res Z * L;
  net_balance : string -> L -> res Z * L;
  net_submit : Transaction -> Wallet -> L -> res Response * L }.

(** Python truthiness of the values the script tests. *)
Definition truthy_str (s : string) : bool :=
  match s with "" => false | _ => true end.

Definition truthy_pystr (s : pystr) : bool :=
  match s with [] => false | _ => true end.

Definition truthy_hash (h : option string) : bool :=
  match h with None => false | Some s => truthy_str s end.

Definition str_of_bool (b : bool) : string := if b then "True" else "False".

(** ** class XRPConstructionSimulator *)

Section Simulator.
Context {L : Type} `{LedgerClient L}.

(** [Wallet.create()]: local key generation, no request. *)
Definition Wallet_create : Py L Wallet := fun w =>
  let '(wallet, l') := net_new_wallet (net w) in
  (Ok wallet, mkWorld (clock w) (console w) (calls w) (files w) l').

(** [requests.post(faucet, json={"destination": address}).status_code] *)
Definition requests_post (address : string) : Py L Z := fun w =>
  let '(r, l') := net_faucet address (net w) in
  (r, mkWorld (clock w) (console w) (calls w ++ [CallFaucet address]) (files w) l').

(** [xrpl.account.get_balance(address, client)], in drops. *)
Definition xrpl_get_balance (address : string) : Py L Z := fun w =>
  let '(r, l') := net_balance address (net w) in
  (r, mkWorld (clock w) (console w) (calls w ++ [CallBalance address]) (files w) l').

(** [xrpl.transaction.submit_and_wait(tx, client, wallet)]: signs,
    submits and waits for validation. *)
Definition submit_and_wait (tx : Transaction) (wallet : Wallet) : Py L Response :=
  fun w =>
    let '(r, l') := net_submit tx wallet (net w) in
    (r, mkWorld (clock w) (console w) (calls w ++ [CallSubmit tx wallet]) (files w) l').

(** [response.result['hash']] *)
Definition result_hash_item (response : Response) : res string :=
  match result_hash response with
  | Some h => Ok h
  | None => Raise (Exception "KeyError" "'hash'")
  end.

Definition create_wallet (label : string) : Py L Wallet :=
  wallet ← Wallet_create;
  print (nl +:+ "✅ Created " +:+ label);;
  print ("   Address: " +:+ classic_address wallet);;
  print ("   Seed: " +:+ seed wallet);;
  print "   ⚠️  SAVE THIS SEED - IT WILL NOT BE SHOWN AGAIN";;
  mret wallet.

Definition fund_wallet (wallet : Wallet) : Py L bool :=
  print (nl +:+ "💰 Funding wallet " +:+ classic_address wallet +:+ "...");;
  try_except
    (status_code ← requests_post (classic_address wallet);
     if status_code =? 200 then
       time_sleep 4;;
       balance ← xrpl_get_balance (classic_address wallet);
       xrp ← lift (drops_to_xrp balance);
       print ("   ✅ Funded! Balance: " +:+ str_of_Decimal xrp +:+ " XRP");;
       mret true
     else
       print ("   ❌ Faucet request failed: " +:+ str_of_Z status_code);;
       mret false)
    (fun e =>
       print ("   ❌ Funding failed: " +:+ exn_msg e);;
       mret false).

Definition get_balance (wallet : Wallet) : Py L Decimal :=
  balance_drops ← xrpl_get_balance (classic_address wallet);
  balance_xrp ← lift (drops_to_xrp balance_drops);
  print ("💵 Balance for " +:+ classic_address wallet +:+ ": "
         +:+ str_of_Decimal balance_xrp +:+ " XRP");;
  mret balance_xrp.

(** Lines 85-101 of [send_payment]: the transaction handed to
    [submit_and_wait]. *)
Definition build_payment (from_wallet : Wallet) (to_address : string)
    (amount_xrp : Z) (memo : pystr) : res Transaction :=
  amount ← xrp_to_drops amount_xrp;
  let payment_tx :=
    Payment.mk (classic_address from_wallet) to_address amount None in
  if truthy_pystr memo then
    memo_data ← bytes_hex <$> utf8_encode memo;
    memo_type ← bytes_hex <$> utf8_encode (pystr_of_string "construction-payment");
    mret (TxPayment (Payment.set_memos payment_tx [mkMemo memo_data memo_type]))
  else mret (TxPayment payment_tx).

Definition send_payment (from_wallet : Wallet) (to_address : string)
    (amount_xrp : Z) (memo : pystr) : Py L (option string) :=
  print (nl +:+ "📤 Sending " +:+ str_of_Z amount_xrp +:+ " XRP...");;
  print ("   From: " +:+ classic_address from_wallet);;
  print ("   To: " +:+ to_address);;
  payment_tx ← lift (build_payment from_wallet to_address amount_xrp memo);
  try_except
    (response ← submit_and_wait payment_tx from_wallet;
     if decide (TransactionResult response = Some "tesSUCCESS") then
       tx_hash ← lift (result_hash_item response);
       print "   ✅ Payment successful!";;
       print ("   Hash: " +:+ tx_hash);;
       print ("   Validated: "
              +:+ str_of_bool (default false (validated response)));;
       get_balance from_wallet;;
       mret (Some tx_hash)
     else
       print ("   ❌ Payment failed: " +:+ result_repr response);;
       mret None)
    (fun e =>
       print ("   ❌ Payment error: " +:+ exn_msg e);;
       mret None).

Definition RIPPLE_EPOCH : Z := 946684800.

(** Lines 130-153 of [create_escrow], given the clock reading
    [current_time]. *)
Definition build_escrow (from_wallet : Wallet) (to_address : string)
    (amount_xrp : Z) (days_until_release : Z) (memo : pystr)
    (current_time : Z) : res Transaction :=
  let finish_after :=
    current_time + (days_until_release * 24 * 60 * 60) - RIPPLE_EPOCH in
  amount ← xrp_to_drops amount_xrp;
  let escrow_tx :=
    EscrowCreate.mk (classic_address from_wallet) to_address amount
                    finish_after None in
  if truthy_pystr memo then
    memo_data ← bytes_hex <$> utf8_encode memo;
    memo_type ← bytes_hex <$> utf8_encode (pystr_of_string "construction-escrow");
    mret (TxEscrowCreate
            (EscrowCreate.set_memos escrow_tx [mkMemo memo_data memo_type]))
  else mret (TxEscrowCreate escrow_tx).

Definition create_escrow (from_wallet : Wallet) (to_address : string)
    (amount_xrp : Z) (days_until_release : Z) (memo : pystr)
    : Py L (option string) :=
  print (nl +:+ "🔒 Creating escrow for " +:+ str_of_Z amount_xrp +:+ " XRP...");;
  print ("   From: " +:+ classic_address from_wallet);;
  print ("   To: " +:+ to_address);;
  print ("   Release after: " +:+ str_of_Z days_until_release +:+ " days");;
  current_time ← time_time;
  let finish_after :=
    current_time + (days_until_release * 24 * 60 * 60) - RIPPLE_EPOCH in
  escrow_tx ← lift (build_escrow from_wallet to_address amount_xrp
                                 days_until_release memo current_time);
  try_except
    (response ← submit_and_wait escrow_tx from_wallet;
     if decide (TransactionResult response = Some "tesSUCCESS") then
       tx_hash ← lift (result_hash_item response);
       print "   ✅ Escrow created!";;
       print ("   Hash: " +:+ tx_hash);;
       until ← lift (datetime_fromtimestamp (finish_after + RIPPLE_EPOCH));
       print ("   Funds locked until: " +:+ until);;
       mret (Some tx_hash)
     else
       print ("   ❌ Escrow creation failed: " +:+ result_repr response);;
       mret None)
    (fun e =>
       print ("   ❌ Escrow error: " +:+ exn_msg e);;
       mret None).

Definition str_of_hash (h : option string) : string :=
  match h with Some s => s | None => "None" end.

(** Lines 188-270 of [simulate_construction_payment_flow]: everything
    after the three wallets exist. *)
Definition milestone_steps (owner_wallet gc_wallet sub_wallet : Wallet)
    : Py L unit :=
  (* Step 2: Fund owner wallet *)
  print (nl +:+ "📋 Step 2: Funding Owner Wallet from Testnet Faucet");;
  funded ← fund_wallet owner_wallet;
  if negb funded then
    print "❌ Simulation failed - could not fund owner wallet"
  else
    (* Step 3: Owner creates escrow for GC (foundation milestone) *)
    print (nl +:+ "📋 Step 3: Owner Creates Escrow for GC (Foundation Milestone)");;
    let escrow_amount := 50 in
    escrow_hash ← create_escrow owner_wallet (classic_address gc_wallet)
      escrow_amount 7
      (pystr_of_string "Project #2025-001: Foundation Complete - $100,000 USD");
    if negb (truthy_hash escrow_hash) then
      print "❌ Simulation failed - could not create escrow"
    else
      (* Step 4: Owner directly pays GC (immediate payment scenario) *)
      print (nl +:+ "📋 Step 4: Owner Pays GC (Direct Payment - No Escrow)");;
      let gc_payment := 25 in
      gc_payment_hash ← send_payment owner_wallet (classic_address gc_wallet)
        gc_payment (pystr_of_string "Project #2025-001: Progress Payment #1");
      time_sleep 2;;
      (* Step 5: GC pays subcontractor *)
      print (nl +:+ "📋 Step 5: GC Pays Subcontractor");;
      let sub_payment := 10 in
      sub_payment_hash ← send_payment gc_wallet (classic_address sub_wallet)
        sub_payment
        (pystr_of_string "Project #2025-001: Concrete Work - Division 03");
      (* Final balances *)
      print (nl +:+ str_mul "=" 60);;
      print "💰 FINAL BALANCES";;
      print (str_mul "=" 60);;
      get_balance owner_wallet;;
      get_balance gc_wallet;;
      get_balance sub_wallet;;
      (* Summary *)
      print (nl +:+ str_mul "=" 60);;
      print "✅ SIMULATION COMPLETE";;
      print (str_mul "=" 60);;
      print (nl +:+ "📊 Transaction Summary:");;
      print ("   Escrow Created: " +:+ str_of_hash escrow_hash);;
      print ("   GC Payment: " +:+ str_of_hash gc_payment_hash);;
      print ("   Subcontractor Payment: " +:+ str_of_hash sub_payment_hash);;
      print (nl +:+ "🔍 View transactions on XRPL Testnet Explorer:");;
      print "   https://testnet.xrpl.org/";;
      (* Save wallet info *)
      let wallet_data :=
        [("owner", (classic_address owner_wallet, seed owner_wallet));
         ("gc", (classic_address gc_wallet, seed gc_wallet));
         ("subcontractor", (classic_address sub_wallet, seed sub_wallet))] in
      json_dump_to "simulation_wallets.json" wallet_data;;
      print (nl +:+ "💾 Wallet data saved to: simulation_wallets.json");;
      print "   ⚠️  KEEP THIS FILE SECURE - Contains wallet seeds!".

Definition simulate_construction_payment_flow : Py L unit :=
  print (nl +:+ str_mul "=" 60);;
  print "🏗️  CONSTRUCTION PAYMENT FLOW SIMULATION";;
  print (str_mul "=" 60);;
  (* Step 1: Create wallets *)
  print (nl +:+ "📋 Step 1: Creating Project Wallets");;
  owner_wallet ← create_wallet "Owner Wallet";
  gc_wallet ← create_wallet "General Contractor Wallet";
  sub_wallet ← create_wallet "Subcontractor Wallet";
  milestone_steps owner_wallet gc_wallet sub_wallet.

End Simulator.

(** [XRPConstructionSimulator()] followed by the flow, as [main] runs
    them. *)
Definition TESTNET_URL : string := "https://s.altnet.rippletest.net:51234".

Definition main {L} `{LedgerClient L} : Py L unit :=
  print ("🔗 Connected to XRPL Testnet: " +:+ TESTNET_URL);;
  simulate_construction_payment_flow.

Definition initial_world {L} (now : Z) (l : L) : World L :=
  mkWorld now [] [] [] l.

(** ** Amounts given as any finite number

    [send_payment] and [create_escrow] pass [amount_xrp] to
    [xrp_to_drops] as it comes: an [int], a [float] or a [Decimal].  Every
    finite one has an exact decimal value, the [Decimal(xrp)] the library
    starts from: a coefficient times a power of ten. *)
Record Number := mkNumber { coefficient : Z; exponent : Z }.

(** A Python [int]. *)
Definition whole (n : Z) : Number := mkNumber n 0.

(** [x < y] on exact values. *)
Definition Number_ltb (x y : Number) : bool :=
  let m := Z.min (exponent x) (exponent y) in
  coefficient x * 10 ^ (exponent x - m) <? coefficient y * 10 ^ (exponent y - m).

(** [ONE_DROP = Decimal("0.000001")], the indivisible unit. *)
Definition ONE_DROP : Number := mkNumber 1 (-6).

(** [x / ONE_DROP]: dividing by a power of ten moves the exponent. *)
Definition div_ONE_DROP (x : Number) : Number :=
  mkNumber (coefficient x) (exponent x - exponent ONE_DROP).

(** The integer a number is, when it is one. *)
Definition integral (x : Number) : option Z :=
  if 0 <=? exponent x then Some (coefficient x * 10 ^ exponent x)
  else if coefficient x mod 10 ^ (- exponent x) =? 0
       then Some (coefficient x / 10 ^ (- exponent x))
       else None.

(** The amount as an error message names it; a whole number is shown as
    the [int] it is, any other number by its coefficient and exponent. *)
Definition str_of_Number (x : Number) : string :=
  if exponent x =? 0 then str_of_Z (coefficient x)
  else str_of_Z (coefficient x) +:+ "E" +:+ str_of_Z (exponent x).

Section AnyNumber.

(** What the library does with an amount that is no whole number of drops
    (it may round, it may raise) is left open. *)
Variable inexact : Number -> res string.

(** [xrpl.utils.xrp_to_drops] on any finite number. *)
Definition xrp_to_drops_number (xrp : Number) : res string :=
  if Number_ltb xrp ONE_DROP && negb (coefficient xrp =? 0) then
    Raise (Exception "XRPRangeException" (str_of_Number xrp +:+ " is too small."))
  else if Number_ltb (whole MAX_XRP) xrp then
    Raise (Exception "XRPRangeException" (str_of_Number xrp +:+ " is too large."))
  else
    match integral (div_ONE_DROP xrp) with
    | Some drops => Ok (str_of_Z drops)
    | None => inexact xrp
    end.

(** Lines 85-101 of [send_payment] for any finite amount. *)
Definition build_payment_number (from_wallet : Wallet) (to_address : string)
    (amount_xrp : Number) (memo : pystr) : res Transaction :=
  amount ← xrp_to_drops_number amount_xrp;
  let payment_tx :=
    Payment.mk (classic_address from_wallet) to_address amount None in
  if truthy_pystr memo then
    memo_data ← bytes_hex <$> utf8_encode memo;
    memo_type ← bytes_hex <$> utf8_encode (pystr_of_string "construction-payment");
    mret (TxPayment (Payment.set_memos payment_tx [mkMemo memo_data memo_type]))
  else mret (TxPayment payment_tx).

(** Lines 130-153 of [create_escrow] for any finite amount. *)
Definition build_escrow_number (from_wallet : Wallet) (to_address : string)
    (amount_xrp : Number) (days_until_release : Z) (memo : pystr)
    (current_time : Z) : res Transaction :=
  let finish_after :=
    current_time + (days_until_release * 24 * 60 * 60) - RIPPLE_EPOCH in
  amount ← xrp_to_drops_number amount_xrp;
  let escrow_tx :=
    EscrowCreate.mk (classic_address from_wallet) to_address amount
                    finish_after None in
  if truthy_pystr memo then
    memo_data ← bytes_hex <$> utf8_encode memo;
    memo_type ← bytes_hex <$> utf8_encode (pystr_of_string "construction-escrow");
    mret (TxEscrowCreate
            (EscrowCreate.set_memos escrow_tx [mkMemo memo_data memo_type]))
  else mret (TxEscrowCreate escrow_tx).

End AnyNumber.

(** ** Two ledger clients for concrete runs *)

(** *** A scripted client

    It replays canned answers, one per request of each kind, and raises a
    connection error once a list is used up.  Any sequence of answers of
    the network can be staged with it. *)
Record Script := mkScript {
  script_wallets : list Wallet;
  script_faucet : list (res Z);
  script_balances : list (res Z);
  script_submits : list (res Response) }.

Definition connection_lost : exn :=
  Exception "ConnectionError" "connection lost".

Definition next_reply {A} (replies : list (res A)) : res A * list (res A) :=
  match replies with
  | r :: rest => (r, rest)
  | [] => (Raise connection_lost, [])
  end.

#[global] Instance Script_client : LedgerClient Script := {
  net_new_wallet s :=
    match script_wallets s with
    | w :: ws =>
        (w, mkScript ws (script_faucet s) (script_balances s) (script_submits s))
    | [] => (mkWallet "" "", s)
    end;
  net_faucet _ s :=
    let '(r, rest) := next_reply (script_faucet s) in
    (r, mkScript (script_wallets s) rest (script_balances s) (script_submits s));
  net_balance _ s :=
    let '(r, rest) := next_reply (script_balances s) in
    (r, mkScript (script_wallets s) (script_faucet s) rest (script_submits s));
  net_submit _ _ s :=
    let '(r, rest) := next_reply (script_submits s) in
    (r, mkScript (script_wallets s) (script_faucet s) (script_balances s) rest) }.

(** *** An in-memory ledger *)

(** An amount set aside by an escrow until its release time. *)
Record Escrowed := mkEscrowed {
  esc_owner : string;
  esc_destination : string;
  esc_drops : Z;
  esc_finish_after : Z }.

(** Modelled from the spec: the ledger network behind the LedgerClient of
    section 4.2 is an external collaborator and no part of the repository.
    This stand-in keeps the available balance of every funded account, in
    drops, the escrows created, the fee charged per operation and the
    amount the faucet grants. *)
Record MemLedger := mkMem {
  mem_wallets : list Wallet;
  mem_balances : gmap string Z;
  mem_escrows : list Escrowed;
  mem_fee : Z;
  mem_grant : Z;
  mem_seq : Z }.

(** The replies of [submit_and_wait] for a transaction the ledger refused
    with outcome [code], and for the [seq]-th validated transaction. *)
Definition rejected (code : string) : Response :=
  mkResponse (Some code) None (Some true) code.

Definition committed (seq : Z) : Response :=
  mkResponse (Some "tesSUCCESS") (Some ("TX" +:+ str_of_Z seq)) (Some true)
             "tesSUCCESS".

(** Modelled from the spec: submission to the in-memory ledger.  An
    operation is refused when the payer cannot cover the amount and the
    fee (section 4.2: rejected for insufficient balance); otherwise it
    commits: the payer pays amount and fee, a payment credits the
    destination, an escrow sets the amount aside until its release time. *)
Definition mem_submit (tx : Transaction) (signer : Wallet) (m : MemLedger)
    : res Response * MemLedger :=
  match mem_balances m !! tx_account tx with
  | None => (Raise (Exception "XRPLRequestFailureException" "Account not found."), m)
  | Some bal =>
      match Z_of_str (tx_amount tx) with
      | None => (Ok (rejected "temBAD_AMOUNT"), m)
      | Some drops =>
          if drops <=? 0 then (Ok (rejected "temBAD_AMOUNT"), m)
          else if bal <? drops + mem_fee m then
            (Ok (rejected "tecUNFUNDED_PAYMENT"), m)
          else
            let paid := <[tx_account tx := bal - drops - mem_fee m]> (mem_balances m) in
            match tx with
            | TxPayment p =>
                let dest := Payment.destination p in
                (Ok (committed (mem_seq m)),
                 mkMem (mem_wallets m)
                       (<[dest := default 0 (paid !! dest) + drops]> paid)
                       (mem_escrows m) (mem_fee m) (mem_grant m) (mem_seq m + 1))
            | TxEscrowCreate e =>
                (Ok (committed (mem_seq m)),
                 mkMem (mem_wallets m) paid
                       (mem_escrows m ++
                          [mkEscrowed (EscrowCreate.account e)
                                      (EscrowCreate.destination e) drops
                                      (EscrowCreate.finish_after e)])
                       (mem_fee m) (mem_grant m) (mem_seq m + 1))
            end
      end
  end.

(** Modelled from the spec: the faucet credits [mem_grant] drops and
    answers 200; a balance query reads the available balance and fails for
    an account that was never funded. *)
#[global] Instance Mem_client : LedgerClient MemLedger := {
  net_new_wallet m :=
    match mem_wallets m with
    | w :: ws =>
        (w, mkMem ws (mem_balances m) (mem_escrows m) (mem_fee m) (mem_grant m)
                  (mem_seq m))
    | [] => (mkWallet "" "", m)
    end;
  net_faucet address m :=
    (Ok 200,
     mkMem (mem_wallets m)
           (<[address := default 0 (mem_balances m !! address) + mem_grant m]>
              (mem_balances m))
           (mem_escrows m) (mem_fee m) (mem_grant m) (mem_seq m));
  net_balance address m :=
    match mem_balances m !! address with
    | Some bal => (Ok bal, m)
    | None => (Raise (Exception "XRPLRequestFailureException" "Account not found."), m)
    end;
  net_submit := mem_submit }.

Definition owner0 : Wallet := mkWallet "rOwner" "sOwnerSeed".
Definition gc0 : Wallet := mkWallet "rContractor" "sContractorSeed".
Definition sub0 : Wallet := mkWallet "rSubcontractor" "sSubcontractorSeed".

(** A fresh ledger whose faucet grants [grant] drops and which charges
    [fee] drops per operation. *)
Definition fresh_ledger (grant fee : Z) : MemLedger :=
  mkMem [owner0; gc0; sub0] ∅ [] fee grant 1.

(** The memo and the category tag a reader recovers from the memo slot of
    a transaction; [None] when the slot is absent or unreadable. *)
Definition decode_memos (ms : option (list Memo)) : option (pystr * pystr) :=
  match ms with
  | Some [m] =>
      text ← decode_hex_utf8 (MemoData m);
      tag ← decode_hex_utf8 (MemoType m);
      Some (text, tag)
  | _ => None
  end.

(** The amount a reader recovers from the serialized amount field, in
    drops. *)
Definition decode_amount (tx : Transaction) : option Z := Z_of_str (tx_amount tx).

(** ** Notions and fixtures used by the statements *)

(** The values a byte takes. *)
Definition is_byte (b : Z) : Prop := 0 <= b < 256.

(** The transactions submitted so far, by payer, destination and
    serialized amount. *)
Definition submitted {L} (w : World L) : list (string * string * string) :=
  omap (fun c =>
          match c with
          | CallSubmit tx _ => Some (tx_account tx, tx_destination tx, tx_amount tx)
          | _ => None
          end) (calls w).

(** Two worlds that agree on everything a seed could leak through: clock,
    console and network state.  The request log and the saved file are
    left out, as they name the signing wallet. *)
Definition same_view {L} (w1 w2 : World L) : Prop :=
  clock w1 = clock w2 /\ console w1 = console w2 /\ net w1 = net w2.

(** Two statements that, run in worlds with the same view, return the
    same result and leave worlds with the same view. *)
Definition agree {L A} (m1 m2 : Py L A) : Prop :=
  forall w1 w2, same_view w1 w2 ->
    fst (m1 w1) = fst (m2 w2) /\ same_view (snd (m1 w1)) (snd (m2 w2)).

(** A statement only ever adds requests to the log. *)
Definition grows {L A} (m : Py L A) : Prop :=
  forall w, exists more, calls (snd (m w)) = calls w ++ more.

(** The memo "né": one ASCII letter and one two-byte letter. *)
Definition memo_ne : pystr := [110; 233].

(** A ledger that answers the one submission it receives by refusing an
    escrow whose release time has passed. *)
Definition past_release_script : Script :=
  mkScript [] [] [] [Ok (rejected "tecNO_PERMISSION")].

(** A ledger that validates the payment and then drops the connection
    before the balance can be read. *)
Definition balance_outage_script : Script :=
  mkScript [] [] [Raise connection_lost] [Ok (committed 1)].

(** A ledger that validates the one transaction it receives and reports a
    balance of 925 XRP. *)
Definition success_script : Script :=
  mkScript [] [] [Ok 925000000] [Ok (committed 1)].

(** A scripted ledger answering every request of a successful run. *)
Definition happy_script : Script :=
  mkScript [owner0; gc0; sub0] [Ok 200]
    [Ok 1000000000; Ok 924999980; Ok 14999990;
     Ok 924999980; Ok 14999990; Ok 10000000]
    [Ok (committed 1); Ok (committed 2); Ok (committed 3)].

(** The wait for validation of the first payment ends without an answer;
    the payment may or may not have committed. *)
Definition validation_timeout : exn :=
  Exception "XRPLReliableSubmissionException"
            "Transaction failed - latest ledger is greater than LastLedgerSequence".

(** A ledger that validates the escrow, gives no answer for the first
    payment and validates the second one. *)
Definition timeout_script : Script :=
  mkScript [owner0; gc0; sub0] [Ok 200]
    [Ok 1000000000; Ok 14999990; Ok 924999980; Ok 14999990; Ok 10000000]
    [Ok (committed 1); Raise validation_timeout; Ok (committed 3)].

(** A fresh in-memory ledger whose wallet generator hands the owner the
    seed [owner_seed]. *)
Definition ledger_with_owner_seed (owner_seed : string) : MemLedger :=
  mkMem [mkWallet "rOwner" owner_seed; gc0; sub0] ∅ [] 10 1000000000 1.

(** The in-memory ledger after a faucet grant, after a committed escrow and
    after a committed payment by a payer whose balance was [bal]. *)
Definition mem_after_faucet (address : string) (m : MemLedger) : MemLedger :=
  mkMem (mem_wallets m)
        (<[address := default 0 (mem_balances m !! address) + mem_grant m]>
           (mem_balances m))
        (mem_escrows m) (mem_fee m) (mem_grant m) (mem_seq m).

Definition mem_after_escrow (payer dest : string) (drops bal finish : Z)
    (m : MemLedger) : MemLedger :=
  mkMem (mem_wallets m) (<[payer := bal - drops - mem_fee m]> (mem_balances m))
        (mem_escrows m ++ [mkEscrowed payer dest drops finish])
        (mem_fee m) (mem_grant m) (mem_seq m + 1).

Definition mem_after_payment (payer dest : string) (drops bal : Z)
    (m : MemLedger) : MemLedger :=
  let paid := <[payer := bal - drops - mem_fee m]> (mem_balances m) in
  mkMem (mem_wallets m) (<[dest := default 0 (paid !! dest) + drops]> paid)
        (mem_escrows m) (mem_fee m) (mem_grant m) (mem_seq m + 1).

(** The addresses the faucet was asked to fund so far. *)
Definition faucet_requests {L} (w : World L) : list string :=
  omap (fun c =>
          match c with
          | CallFaucet address => Some address
          | _ => None
          end) (calls w).

(** From [w] to [w'] the transactions [subs] were submitted and the faucet
    was asked for [fau]; no file was written. *)
Definition step_adds {L} (w w' : World L)
    (subs : list (string * string * string)) (fau : list string) : Prop :=
  submitted w' = submitted w ++ subs
  /\ faucet_requests w' = faucet_requests w ++ fau
  /\ files w' = files w.

(** What the flow hands to [json.dump] for the three wallets. *)
Definition wallet_file (owner_wallet gc_wallet sub_wallet : Wallet)
    : string * WalletData :=
  ("simulation_wallets.json",
   [("owner", (classic_address owner_wallet, seed owner_wallet));
    ("gc", (classic_address gc_wallet, seed gc_wallet));
    ("subcontractor", (classic_address sub_wallet, seed sub_wallet))]).

(** The three transactions of the flow, by payer, destination and
    serialized amount. *)
Definition escrow_step (owner_wallet gc_wallet : Wallet)
    : string * string * string :=
  (classic_address owner_wallet, classic_address gc_wallet, "50000000").

Definition gc_payment_step (owner_wallet gc_wallet : Wallet)
    : string * string * string :=
  (classic_address owner_wallet, classic_address gc_wallet, "25000000").

Definition sub_payment_step (gc_wallet sub_wallet : Wallet)
    : string * string * string :=
  (classic_address gc_wallet, classic_address sub_wallet, "10000000").

(** A faucet that is down, and a ledger that validates an escrow without
    naming its hash. *)
Definition faucet_down_script : Script :=
  mkScript [owner0; gc0; sub0] [Ok 503] [] [].

Definition empty_hash_script : Script :=
  mkScript [owner0; gc0; sub0] [Ok 200] [Ok 1000000000]
    [Ok (mkResponse (Some "tesSUCCESS") (Some "") (Some true) "tesSUCCESS")].

(** The three wallets [Wallet.create()] hands to the flow, in the order
    owner, general contractor, subcontractor, and the generator's state
    after them. *)
Definition created_wallets {L} `{LedgerClient L} (l : L)
    : Wallet * Wallet * Wallet * L :=
  let '(owner_wallet, l1) := net_new_wallet l in
  let '(gc_wallet, l2) := net_new_wallet l1 in
  let '(sub_wallet, l3) := net_new_wallet l2 in
  (owner_wallet, gc_wallet, sub_wallet, l3).

(** Texts made of pairs of the digits [0-9a-f]: what [bytes.hex()] writes
    and the ledger expects in a memo field. *)
Definition is_lower_hex (a : ascii) : bool :=
  let n := Z.of_N (N_of_ascii a) in
  ((48 <=? n) && (n <=? 57)) || ((97 <=? n) && (n <=? 102)).

Fixpoint lower_hex_pairs (s : string) : bool :=
  match s with
  | "" => true
  | String hi (String lo s') =>
      is_lower_hex hi && is_lower_hex lo && lower_hex_pairs s'
  | String _ "" => false
  end.

(** The ledger's own units, stated apart from the script's constants.

    One XRP is 1,000,000 drops: [x] XRP is exactly [n] drops when [n] is
    [x] times ten to the sixth. *)
Definition is_drops (x : Number) (n : Z) : Prop :=
  if 0 <=? exponent x + 6 then n = coefficient x * 10 ^ (exponent x + 6)
  else n * 10 ^ (- (exponent x + 6)) = coefficient x.

(** The ledger counts seconds from 2000-01-01T00:00:00 UTC, POSIX time from
    1970-01-01T00:00:00 UTC, both without leap seconds. *)
Definition is_leap_year (y : Z) : bool :=
  ((y mod 4 =? 0) && negb (y mod 100 =? 0)) || (y mod 400 =? 0).

Definition days_in_year (y : Z) : Z := if is_leap_year y then 366 else 365.

(** The days of the [n] years that start with year [y]. *)
Fixpoint days_of_years (y : Z) (n : nat) : Z :=
  match n with
  | O => 0
  | S n' => days_in_year y + days_of_years (y + 1) n'
  end.

(** POSIX time of the first second of year [y], from 1970 on. *)
Definition posix_of_year (y : Z) : Z :=
  days_of_years 1970 (Z.to_nat (y - 1970)) * 86400.

(** The ledger time of a POSIX time. *)
Definition ledger_time (posix : Z) : Z := posix - posix_of_year 2000.

(** One way the library may treat an amount that is no whole number of
    drops: refuse it. *)
Definition refuse_inexact (xrp : Number) : res string :=
  Raise (Exception "XRPRangeException"
           (str_of_Number xrp +:+ " is no whole number of drops."))%string.

(** * Properties *)

(** ** Decimal numerals *)

Lemma Z_of_str_of_Z (z : Z) : Z_of_str (str_of_Z z) = Some z.
Proof.
  unfold Z_of_str, str_of_Z.
  rewrite NilZero.isi.
  - simpl. f_equal. apply DecimalZ.of_to.
  - destruct z; simpl; try discriminate.
    intros E. injection E as E.
    pose proof (DecimalPos.Unsigned.to_uint_nonnil p). congruence.
  - destruct z; simpl; try discriminate.
    intros E. injection E as E.
    pose proof (DecimalPos.Unsigned.to_uint_nonnil p). congruence.
Qed.

Lemma str_of_Z_inj (a b : Z) : str_of_Z a = str_of_Z b -> a = b.
Proof.
  intros E. pose proof (Z_of_str_of_Z a) as Ha.
  rewrite E, Z_of_str_of_Z in Ha. congruence.
Qed.

(** ** Hexadecimal and UTF-8 round trips *)

Lemma hex_value_digit (n : Z) : 0 <= n < 16 -> hex_value (hex_digit n) = Some n.
Proof.
  intros Hn. destruct n as [| p | p]; [reflexivity | | lia].
  do 4 (try destruct p as [p | p |]); try reflexivity; lia.
Qed.

Lemma bytes_fromhex_hex (bs : list Z) :
  Forall is_byte bs -> bytes_fromhex (bytes_hex bs) = Some bs.
Proof.
  induction 1 as [| b bs Hb _ IH]; [reflexivity |].
  unfold is_byte in Hb. cbn [bytes_hex bytes_fromhex].
  pose proof (Z.div_mod b 16 ltac:(lia)) as E.
  pose proof (Z.mod_pos_bound b 16 ltac:(lia)) as Hm.
  assert (Hd : 0 <= b / 16 < 16)
    by (split; [apply Z.div_pos; lia | apply Z.div_lt_upper_bound; lia]).
  rewrite !hex_value_digit, IH by assumption.
  cbn. do 2 f_equal. lia.
Qed.

(** Settle a boolean comparison whose outcome follows from the context. *)
Ltac decide_cmp :=
  repeat match goal with
  | |- context [?a <=? ?b] =>
      first [ replace (a <=? b) with true by (symmetry; apply Z.leb_le; lia)
            | replace (a <=? b) with false by (symmetry; apply Z.leb_gt; lia) ]
  | |- context [?a <? ?b] =>
      first [ replace (a <? b) with true by (symmetry; apply Z.ltb_lt; lia)
            | replace (a <? b) with false by (symmetry; apply Z.ltb_ge; lia) ]
  end.

Lemma utf8_decode_cons (b0 : Z) (r0 : list Z) :
  utf8_decode (b0 :: r0) =
    if (0 <=? b0) && (b0 <? 128) then cons b0 <$> utf8_decode r0
    else if (192 <=? b0) && (b0 <? 224) then
      match r0 with
      | b1 :: r1 =>
          let c := (b0 - 192) * 64 + (b1 - 128) in
          if is_cont b1 && (128 <=? c)
          then cons c <$> utf8_decode r1 else None
      | _ => None
      end
    else if (224 <=? b0) && (b0 <? 240) then
      match r0 with
      | b1 :: b2 :: r2 =>
          let c := (b0 - 224) * 4096 + (b1 - 128) * 64 + (b2 - 128) in
          if is_cont b1 && is_cont b2 && (2048 <=? c)
             && negb (is_surrogate c)
          then cons c <$> utf8_decode r2 else None
      | _ => None
      end
    else if (240 <=? b0) && (b0 <? 248) then
      match r0 with
      | b1 :: b2 :: b3 :: r3 =>
          let c := (b0 - 240) * 262144 + (b1 - 128) * 4096
                   + (b2 - 128) * 64 + (b3 - 128) in
          if is_cont b1 && is_cont b2 && is_cont b3
             && (65536 <=? c) && (c <=? 1114111)
          then cons c <$> utf8_decode r3 else None
      | _ => None
      end
    else None.
Proof. reflexivity. Qed.

(** One decoding step on the bytes of one encoded code point. *)
Ltac decode_step :=
  intros rest; cbn [app]; rewrite utf8_decode_cons;
  cbv zeta; unfold is_cont, is_surrogate;
  repeat (decide_cmp; cbn [andb negb]).

Lemma utf8_encode_cp_scalar (c : Z) :
  is_scalar c -> exists bs, utf8_encode_cp c = Ok bs /\ Forall is_byte bs
    /\ forall rest, utf8_decode (bs ++ rest) = cons c <$> utf8_decode rest.
Proof.
  intros [[Hlo Hhi] Hs]. unfold utf8_encode_cp. rewrite Hs.
  unfold is_surrogate in Hs. apply andb_false_iff in Hs.
  rewrite Z.leb_gt, Z.leb_gt in Hs.
  pose proof (Z.div_mod c 64 ltac:(lia)) as E64.
  pose proof (Z.mod_pos_bound c 64 ltac:(lia)) as B64.
  destruct (Z.ltb_spec c 0); [lia |].
  destruct (Z.ltb_spec c 128).
  { eexists; split; [reflexivity |]. split.
    - repeat constructor; lia.
    - decode_step. reflexivity. }
  destruct (Z.ltb_spec c 2048).
  { eexists; split; [reflexivity |]. split.
    - repeat constructor; lia.
    - decode_step.
      replace ((192 + c / 64 - 192) * 64 + (128 + c mod 64 - 128)) with c by lia.
      decide_cmp. reflexivity. }
  pose proof (Z.div_mod (c / 64) 64 ltac:(lia)) as E4096.
  pose proof (Z.mod_pos_bound (c / 64) 64 ltac:(lia)) as B4096.
  assert (Hd2 : c / 64 / 64 = c / 4096) by (rewrite Z.div_div by lia; reflexivity).
  destruct (Z.ltb_spec c 65536).
  { eexists; split; [reflexivity |]. split.
    - repeat constructor; lia.
    - decode_step.
      replace ((224 + c / 4096 - 224) * 4096 + (128 + (c / 64) mod 64 - 128) * 64
               + (128 + c mod 64 - 128)) with c by lia.
      destruct Hs; repeat (decide_cmp; cbn [andb negb]);
        rewrite ?andb_false_r; reflexivity. }
  pose proof (Z.div_mod (c / 4096) 64 ltac:(lia)) as E18.
  pose proof (Z.mod_pos_bound (c / 4096) 64 ltac:(lia)) as B18.
  assert (Hd3 : c / 4096 / 64 = c / 262144) by (rewrite Z.div_div by lia; reflexivity).
  destruct (Z.leb_spec c 1114111); [| lia].
  eexists; split; [reflexivity |]. split.
  - repeat constructor; lia.
  - decode_step.
    replace ((240 + c / 262144 - 240) * 262144 + (128 + (c / 4096) mod 64 - 128) * 4096
             + (128 + (c / 64) mod 64 - 128) * 64 + (128 + c mod 64 - 128))
      with c by lia.
    repeat (decide_cmp; cbn [andb negb]). reflexivity.
Qed.

Lemma utf8_roundtrip (s : pystr) :
  Forall is_scalar s ->
  exists bs, utf8_encode s = Ok bs /\ Forall is_byte bs /\ utf8_decode bs = Some s.
Proof.
  induction 1 as [| c s Hc _ (bs & E & B & D)].
  - exists []. repeat split; constructor.
  - destruct (utf8_encode_cp_scalar c Hc) as (cs & Ec & Bc & Dc).
    exists (cs ++ bs). cbn [utf8_encode]. rewrite Ec, E. split; [reflexivity |].
    split; [apply Forall_app; auto |]. rewrite Dc, D. reflexivity.
Qed.

Lemma hex_utf8_roundtrip (s : pystr) :
  Forall is_scalar s ->
  exists h, bytes_hex <$> utf8_encode s = Ok h /\ decode_hex_utf8 h = Some s.
Proof.
  intros (bs & E & B & D)%utf8_roundtrip.
  exists (bytes_hex bs). rewrite E. split; [reflexivity |].
  unfold decode_hex_utf8. rewrite bytes_fromhex_hex by assumption. exact D.
Qed.

Lemma pystr_of_string_scalar (s : string) :
  Forall (fun a => (N_of_ascii a < 128)%N) (list_ascii_of_string s) ->
  Forall is_scalar (pystr_of_string s).
Proof.
  unfold pystr_of_string. induction 1 as [| a l Ha _ IH]; [constructor |].
  cbn [fmap list_fmap]. constructor; [| exact IH].
  unfold is_scalar, is_code_point, is_surrogate. split; [lia |].
  apply andb_false_iff. left. apply Z.leb_gt. lia.
Qed.

(** ** Building transactions *)

Lemma xrp_to_drops_in_range (xrp : Z) :
  0 <= xrp <= MAX_XRP -> xrp_to_drops xrp = Ok (str_of_Z (xrp * DROPS_PER_XRP)).
Proof.
  intros Hx. unfold xrp_to_drops.
  destruct (Z.ltb_spec xrp 0); [lia |].
  destruct (Z.ltb_spec MAX_XRP xrp); [lia | reflexivity].
Qed.

Lemma truthy_pystr_false (memo : pystr) : truthy_pystr memo = false <-> memo = [].
Proof. destruct memo; cbn; split; intros E; (reflexivity || discriminate). Qed.

Lemma tag_payment_scalar : Forall is_scalar (pystr_of_string "construction-payment").
Proof. apply pystr_of_string_scalar. repeat constructor. Qed.

Lemma tag_escrow_scalar : Forall is_scalar (pystr_of_string "construction-escrow").
Proof. apply pystr_of_string_scalar. repeat constructor. Qed.

(** The payment built for an amount in range and an encodable memo. *)
Lemma build_payment_ok (from_wallet : Wallet) (to_address : string)
    (amount_xrp : Z) (memo : pystr) :
  0 <= amount_xrp <= MAX_XRP -> Forall is_scalar memo ->
  exists tx, build_payment from_wallet to_address amount_xrp memo = Ok (TxPayment tx)
    /\ Payment.account tx = classic_address from_wallet
    /\ Payment.destination tx = to_address
    /\ Payment.amount tx = str_of_Z (amount_xrp * DROPS_PER_XRP)
    /\ (memo = [] -> Payment.memos tx = None)
    /\ (memo <> [] ->
        decode_memos (Payment.memos tx)
        = Some (memo, pystr_of_string "construction-payment")).
Proof.
  intros Ha Hm. unfold build_payment.
  rewrite (xrp_to_drops_in_range _ Ha). cbn [mbind res_bind].
  destruct memo as [| c memo'].
  - eexists. split; [reflexivity |]. cbn. repeat split; congruence.
  - destruct (hex_utf8_roundtrip _ Hm) as (data & Ed & Dd).
    destruct (hex_utf8_roundtrip _ tag_payment_scalar) as (tag & Et & Dt).
    cbn [truthy_pystr]. rewrite Ed. cbn [mbind res_bind]. rewrite Et.
    eexists. split; [reflexivity |]. cbn [Payment.set_memos Payment.account
      Payment.destination Payment.amount Payment.memos].
    repeat split; try congruence.
    intros _. cbn [decode_memos MemoData MemoType]. rewrite Dd, Dt. reflexivity.
Qed.

Lemma build_escrow_ok (from_wallet : Wallet) (to_address : string)
    (amount_xrp days_until_release : Z) (memo : pystr) (current_time : Z) :
  0 <= amount_xrp <= MAX_XRP -> Forall is_scalar memo ->
  exists tx,
    build_escrow from_wallet to_address amount_xrp days_until_release memo
                 current_time = Ok (TxEscrowCreate tx)
    /\ EscrowCreate.account tx = classic_address from_wallet
    /\ EscrowCreate.destination tx = to_address
    /\ EscrowCreate.amount tx = str_of_Z (amount_xrp * DROPS_PER_XRP)
    /\ EscrowCreate.finish_after tx
       = current_time + days_until_release * 24 * 60 * 60 - RIPPLE_EPOCH
    /\ (memo = [] -> EscrowCreate.memos tx = None)
    /\ (memo <> [] ->
        decode_memos (EscrowCreate.memos tx)
        = Some (memo, pystr_of_string "construction-escrow")).
Proof.
  intros Ha Hm. unfold build_escrow.
  rewrite (xrp_to_drops_in_range _ Ha). cbn [mbind res_bind].
  destruct memo as [| c memo'].
  - eexists. split; [reflexivity |]. cbn. repeat split; congruence.
  - destruct (hex_utf8_roundtrip _ Hm) as (data & Ed & Dd).
    destruct (hex_utf8_roundtrip _ tag_escrow_scalar) as (tag & Et & Dt).
    cbn [truthy_pystr]. rewrite Ed. cbn [mbind res_bind]. rewrite Et.
    eexists. split; [reflexivity |]. cbn [EscrowCreate.set_memos
      EscrowCreate.account EscrowCreate.destination EscrowCreate.amount
      EscrowCreate.finish_after EscrowCreate.memos].
    repeat split; try congruence.
    intros _. cbn [decode_memos MemoData MemoType]. rewrite Dd, Dt. reflexivity.
Qed.

(** Whatever the inputs, a built transaction has a memo slot exactly when
    the memo text is not empty. *)
Lemma build_payment_memos (from_wallet : Wallet) (to_address : string)
    (amount_xrp : Z) (memo : pystr) (tx : Transaction) :
  build_payment from_wallet to_address amount_xrp memo = Ok tx ->
  (memo = [] <-> tx_memos tx = None).
Proof.
  unfold build_payment. destruct (xrp_to_drops amount_xrp) as [amount | e];
    cbn [mbind res_bind]; [| discriminate].
  destruct memo as [| c memo']; cbn [truthy_pystr].
  - intros [= <-]. cbn. tauto.
  - destruct (bytes_hex <$> utf8_encode (c :: memo')) as [data | e];
      cbn [mbind res_bind]; [| discriminate].
    destruct (bytes_hex <$> utf8_encode (pystr_of_string "construction-payment"))
      as [tag | e]; cbn [mbind res_bind]; [| discriminate].
    intros [= <-]. cbn. split; discriminate.
Qed.

Lemma build_escrow_memos (from_wallet : Wallet) (to_address : string)
    (amount_xrp days_until_release : Z) (memo : pystr) (current_time : Z)
    (tx : Transaction) :
  build_escrow from_wallet to_address amount_xrp days_until_release memo
               current_time = Ok tx ->
  (memo = [] <-> tx_memos tx = None).
Proof.
  unfold build_escrow. destruct (xrp_to_drops amount_xrp) as [amount | e];
    cbn [mbind res_bind]; [| discriminate].
  destruct memo as [| c memo']; cbn [truthy_pystr].
  - intros [= <-]. cbn. tauto.
  - destruct (bytes_hex <$> utf8_encode (c :: memo')) as [data | e];
      cbn [mbind res_bind]; [| discriminate].
    destruct (bytes_hex <$> utf8_encode (pystr_of_string "construction-escrow"))
      as [tag | e]; cbn [mbind res_bind]; [| discriminate].
    intros [= <-]. cbn. split; discriminate.
Qed.

(** ** Amounts that are whole numbers of drops *)

Lemma pow10_pos (k : Z) : 0 <= k -> 0 < 10 ^ k.
Proof. intros Hk. apply Z.pow_pos_nonneg; lia. Qed.

(** An amount of exactly [n] drops, at least one and at most 10^17, is
    converted to the numeral of [n], whatever is done with other
    amounts. *)
Lemma xrp_to_drops_number_exact (inexact : Number -> res string)
    (x : Number) (n : Z) :
  is_drops x n -> 0 < n <= 100000000000000000 ->
  xrp_to_drops_number inexact x = Ok (str_of_Z n).
Proof.
  destruct x as [c e]. unfold is_drops, xrp_to_drops_number, Number_ltb,
    div_ONE_DROP, integral, whole, ONE_DROP, MAX_XRP.
  cbn [coefficient exponent]. intros Hd Hn.
  replace (e - -6) with (e + 6) by lia.
  destruct (Z.leb_spec 0 (e + 6)) as [HE | HE].
  - (* at most six decimals *)
    subst n. rewrite Z.min_r by lia.
    replace (e - -6) with (e + 6) by lia. replace (-6 - -6) with 0 by lia.
    change (1 * 10 ^ 0) with 1.
    destruct (Z.ltb_spec (c * 10 ^ (e + 6)) 1) as [Hlt | _]; [lia |].
    cbn [andb].
    destruct (Z.le_gt_cases 0 e) as [He | He].
    + rewrite Z.min_l by lia. replace (0 - 0) with 0 by lia.
      replace (e - 0) with e by lia.
      rewrite Z.pow_add_r in Hn by lia. change (10 ^ 6) with 1000000 in Hn.
      change (10 ^ 0) with 1.
      pose proof (pow10_pos e He) as Hp.
      destruct (Z.ltb_spec (100000000000 * 1) (c * 10 ^ e)) as [Hgt | _].
      * nia.
      * rewrite Z.pow_add_r by lia. reflexivity.
    + rewrite Z.min_r by lia. replace (e - e) with 0 by lia.
      change (10 ^ 0) with 1.
      pose proof (pow10_pos (e + 6) HE) as Hp.
      pose proof (pow10_pos (- e) ltac:(lia)) as Hq.
      assert (Hpq : 10 ^ (e + 6) * 10 ^ (- e) = 1000000).
      { rewrite <- Z.pow_add_r by lia. replace (e + 6 + - e) with 6 by lia.
        reflexivity. }
      replace (0 - e) with (- e) by lia.
      destruct (Z.ltb_spec (100000000000 * 10 ^ (- e)) (c * 1)) as [Hgt | _].
      * nia.
      * reflexivity.
  - (* more than six decimals, the last ones zero *)
    subst c. rewrite Z.min_l by lia. rewrite (Z.min_r 0 e) by lia.
    replace (e - e) with 0 by lia. change (10 ^ 0) with 1.
    pose proof (pow10_pos (- (e + 6)) ltac:(lia)) as Hp.
    replace (-6 - e) with (- (e + 6)) by lia.
    destruct (Z.ltb_spec (n * 10 ^ (- (e + 6)) * 1) (1 * 10 ^ (- (e + 6))))
      as [Hlt | _]; [nia |].
    cbn [andb].
    replace (0 - e) with (- e) by lia.
    assert (Hpq : 10 ^ (- e) = 1000000 * 10 ^ (- (e + 6))).
    { replace (- e) with (6 + - (e + 6)) at 1 by lia.
      rewrite Z.pow_add_r by lia. reflexivity. }
    destruct (Z.ltb_spec (100000000000 * 10 ^ (- e))
                         (n * 10 ^ (- (e + 6)) * 1)) as [Hgt | _]; [nia |].
    rewrite Z.mod_mul by lia. cbn [Z.eqb]. rewrite Z.div_mul by lia.
    reflexivity.
Qed.

(** On a whole number of XRP the conversion is the one the two methods'
    builders use, whether it returns or raises. *)
Lemma xrp_to_drops_number_whole (inexact : Number -> res string) (xrp : Z) :
  xrp_to_drops_number inexact (whole xrp) = xrp_to_drops xrp.
Proof.
  unfold xrp_to_drops_number, xrp_to_drops, Number_ltb, div_ONE_DROP, integral,
    str_of_Number, whole, ONE_DROP, MAX_XRP, DROPS_PER_XRP.
  cbn [coefficient exponent].
  change (Z.min 0 (-6)) with (-6). change (Z.min 0 0) with 0.
  change (10 ^ (0 - -6)) with 1000000. change (1 * 10 ^ (-6 - -6)) with 1.
  change (10 ^ (0 - 0)) with 1. change (0 =? 0) with true.
  change (0 <=? 0 - -6) with true. cbv iota.
  destruct (Z.ltb_spec xrp 0) as [Hneg | Hpos].
  - destruct (Z.ltb_spec (xrp * 1000000) 1) as [_ | Hge]; [| lia].
    destruct (Z.eqb_spec xrp 0) as [Hz | _]; [lia | reflexivity].
  - assert (Hs : (xrp * 1000000 <? 1) && negb (xrp =? 0) = false).
    { destruct (Z.eqb_spec xrp 0) as [Hz | Hz]; [apply andb_false_r |].
      destruct (Z.ltb_spec (xrp * 1000000) 1); [lia | reflexivity]. }
    rewrite Hs.
    replace (100000000000 * 1 <? xrp * 1) with (100000000000 <? xrp)
      by (f_equal; lia).
    destruct (100000000000 <? xrp); reflexivity.
Qed.

Lemma build_payment_number_whole (inexact : Number -> res string)
    (from_wallet : Wallet) (to_address : string) (amount_xrp : Z) (memo : pystr) :
  build_payment_number inexact from_wallet to_address (whole amount_xrp) memo
  = build_payment from_wallet to_address amount_xrp memo.
Proof.
  unfold build_payment_number, build_payment.
  rewrite (xrp_to_drops_number_whole inexact). reflexivity.
Qed.

Lemma build_escrow_number_whole (inexact : Number -> res string)
    (from_wallet : Wallet) (to_address : string)
    (amount_xrp days_until_release : Z) (memo : pystr) (current_time : Z) :
  build_escrow_number inexact from_wallet to_address (whole amount_xrp)
                      days_until_release memo current_time
  = build_escrow from_wallet to_address amount_xrp days_until_release memo
                 current_time.
Proof.
  unfold build_escrow_number, build_escrow.
  rewrite (xrp_to_drops_number_whole inexact). reflexivity.
Qed.

(** The payment built for an amount of exactly [n] drops. *)
Lemma build_payment_number_ok (inexact : Number -> res string)
    (from_wallet : Wallet) (to_address : string) (amount_xrp : Number)
    (n : Z) (memo : pystr) :
  is_drops amount_xrp n -> 0 < n <= 100000000000000000 ->
  Forall is_scalar memo ->
  exists tx,
    build_payment_number inexact from_wallet to_address amount_xrp memo
    = Ok (TxPayment tx)
    /\ Payment.amount tx = str_of_Z n.
Proof.
  intros Hd Hn Hm. unfold build_payment_number.
  rewrite (xrp_to_drops_number_exact inexact _ _ Hd Hn). cbn [mbind res_bind].
  destruct memo as [| c memo'].
  - eexists. split; reflexivity.
  - destruct (hex_utf8_roundtrip _ Hm) as (data & Ed & _).
    destruct (hex_utf8_roundtrip _ tag_payment_scalar) as (tag & Et & _).
    cbn [truthy_pystr]. rewrite Ed. cbn [mbind res_bind]. rewrite Et.
    eexists. split; reflexivity.
Qed.

(** The escrow built for an amount of exactly [n] drops. *)
Lemma build_escrow_number_ok (inexact : Number -> res string)
    (from_wallet : Wallet) (to_address : string) (amount_xrp : Number)
    (n days_until_release : Z) (memo : pystr) (current_time : Z) :
  is_drops amount_xrp n -> 0 < n <= 100000000000000000 ->
  Forall is_scalar memo ->
  exists tx,
    build_escrow_number inexact from_wallet to_address amount_xrp
                        days_until_release memo current_time
    = Ok (TxEscrowCreate tx)
    /\ EscrowCreate.amount tx = str_of_Z n.
Proof.
  intros Hd Hn Hm. unfold build_escrow_number.
  rewrite (xrp_to_drops_number_exact inexact _ _ Hd Hn). cbn [mbind res_bind].
  destruct memo as [| c memo'].
  - eexists. split; reflexivity.
  - destruct (hex_utf8_roundtrip _ Hm) as (data & Ed & _).
    destruct (hex_utf8_roundtrip _ tag_escrow_scalar) as (tag & Et & _).
    cbn [truthy_pystr]. rewrite Ed. cbn [mbind res_bind]. rewrite Et.
    eexists. split; reflexivity.
Qed.

(** A whole number of XRP is a million times as many drops. *)
Lemma is_drops_whole (a n : Z) : is_drops (whole a) n <-> n = a * 1000000.
Proof. reflexivity. Qed.

(** ** Running the methods against any ledger client *)

Ltac py_unfold :=
  unfold send_payment, create_escrow, get_balance, fund_wallet, create_wallet,
    submit_and_wait, xrpl_get_balance, requests_post, Wallet_create,
    try_except, print, lift, time_time, time_sleep, json_dump_to;
  unfold mbind, mret, Py_bind, Py_ret;
  cbn [fst snd clock console calls files net].

Section Execution.
Context {L : Type} `{LedgerClient L}.

(** A transaction that cannot be built raises out of [send_payment]
    before any request is made. *)
Lemma send_payment_build_raises (from_wallet : Wallet) (to_address : string)
    (amount_xrp : Z) (memo : pystr) (w : World L) (e : exn) :
  build_payment from_wallet to_address amount_xrp memo = Raise e ->
  fst (send_payment from_wallet to_address amount_xrp memo w) = Raise e
  /\ calls (snd (send_payment from_wallet to_address amount_xrp memo w)) = calls w.
Proof. intros Hb. py_unfold. rewrite Hb. split; reflexivity. Qed.

Lemma create_escrow_build_raises (from_wallet : Wallet) (to_address : string)
    (amount_xrp days_until_release : Z) (memo : pystr) (w : World L) (e : exn) :
  build_escrow from_wallet to_address amount_xrp days_until_release memo
               (clock w) = Raise e ->
  fst (create_escrow from_wallet to_address amount_xrp days_until_release memo w)
    = Raise e
  /\ calls (snd (create_escrow from_wallet to_address amount_xrp
                               days_until_release memo w)) = calls w.
Proof. intros Hb. py_unfold. rewrite Hb. split; reflexivity. Qed.

(** [create_escrow] makes exactly one request: the submission of the
    transaction it built from the clock reading at its call. *)
Lemma create_escrow_calls (from_wallet : Wallet) (to_address : string)
    (amount_xrp days_until_release : Z) (memo : pystr) (w : World L)
    (tx : Transaction) :
  build_escrow from_wallet to_address amount_xrp days_until_release memo
               (clock w) = Ok tx ->
  calls (snd (create_escrow from_wallet to_address amount_xrp
                            days_until_release memo w))
  = calls w ++ [CallSubmit tx from_wallet].
Proof.
  intros Hb. py_unfold. rewrite Hb.
  destruct (net_submit tx from_wallet (net w)) as [[resp | e] l1];
    [| reflexivity].
  destruct (decide (TransactionResult resp = Some "tesSUCCESS")) as [Hs | Hs];
    [| reflexivity].
  unfold result_hash_item. destruct (result_hash resp); [| reflexivity].
  cbn [fst snd clock console calls files net].
  destruct (datetime_fromtimestamp _); reflexivity.
Qed.

(** [send_payment] submits the transaction it built, then at most reads
    the payer's balance. *)
Lemma send_payment_calls (from_wallet : Wallet) (to_address : string)
    (amount_xrp : Z) (memo : pystr) (w : World L) (tx : Transaction) :
  build_payment from_wallet to_address amount_xrp memo = Ok tx ->
  let after := calls (snd (send_payment from_wallet to_address amount_xrp memo w)) in
  after = calls w ++ [CallSubmit tx from_wallet]
  \/ after = calls w ++ [CallSubmit tx from_wallet;
                         CallBalance (classic_address from_wallet)].
Proof.
  intros Hb. py_unfold. rewrite Hb.
  destruct (net_submit tx from_wallet (net w)) as [[resp | e] l1];
    [| left; reflexivity].
  destruct (decide (TransactionResult resp = Some "tesSUCCESS")) as [Hs | Hs];
    [| left; reflexivity].
  unfold result_hash_item. destruct (result_hash resp); [| left; reflexivity].
  cbn [fst snd clock console calls files net].
  destruct (net_balance (classic_address from_wallet) l1) as [[bal | e] l2];
    [| right; cbn; rewrite <- app_assoc; reflexivity].
  destruct (drops_to_xrp bal); right; cbn; rewrite <- app_assoc; reflexivity.
Qed.

(** What [send_payment] hands back once the transaction is built. *)
Lemma send_payment_returns (from_wallet : Wallet) (to_address : string)
    (amount_xrp : Z) (memo : pystr) (w : World L) (tx : Transaction) :
  build_payment from_wallet to_address amount_xrp memo = Ok tx ->
  let run := send_payment from_wallet to_address amount_xrp memo w in
  (exists r, fst run = Ok r)
  /\ (forall h, fst run = Ok (Some h) ->
      exists resp l1, net_submit tx from_wallet (net w) = (Ok resp, l1)
        /\ TransactionResult resp = Some "tesSUCCESS"
        /\ result_hash resp = Some h)
  /\ (forall resp l1 h bal l2,
      net_submit tx from_wallet (net w) = (Ok resp, l1) ->
      TransactionResult resp = Some "tesSUCCESS" ->
      result_hash resp = Some h ->
      net_balance (classic_address from_wallet) l1 = (Ok bal, l2) ->
      0 <= bal <= MAX_XRP * DROPS_PER_XRP ->
      fst run = Ok (Some h)).
Proof.
  intros Hb. py_unfold. rewrite Hb.
  destruct (net_submit tx from_wallet (net w)) as [[resp | e] l1].
  2:{ split; [eexists; reflexivity |]. split; [discriminate |].
      intros ? ? ? ? ? [=]. }
  destruct (decide (TransactionResult resp = Some "tesSUCCESS")) as [Hs | Hs].
  2:{ split; [eexists; reflexivity |]. split; [discriminate |].
      intros ? ? ? ? ? [= <- <-]. contradiction. }
  unfold result_hash_item. destruct (result_hash resp) as [h |] eqn:Eh.
  2:{ split; [eexists; reflexivity |]. split; [discriminate |].
      intros ? ? ? ? ? [= <- <-] _. rewrite Eh. discriminate. }
  cbn [fst snd clock console calls files net].
  destruct (net_balance (classic_address from_wallet) l1) as [[bal | e] l2] eqn:Eb.
  2:{ split; [eexists; reflexivity |]. split; [discriminate |].
      intros ? ? ? ? ? [= <- <-] _ _ Eb'. congruence. }
  unfold drops_to_xrp.
  destruct (Z.ltb_spec bal 0);
    [| destruct (Z.ltb_spec (MAX_XRP * DROPS_PER_XRP) bal)].
  - split; [eexists; reflexivity |]. split; [discriminate |].
    intros ? ? ? bal' ? [= <- <-] _ _ Eb' ?.
    assert (bal' = bal) by congruence. lia.
  - split; [eexists; reflexivity |]. split; [discriminate |].
    intros ? ? ? bal' ? [= <- <-] _ _ Eb' ?.
    assert (bal' = bal) by congruence. lia.
  - split; [eexists; reflexivity |]. split.
    + intros h' [= <-]. eauto.
    + intros ? ? ? ? ? [= <- <-] _ Eh' _ _. cbn. congruence.
Qed.

(** What [create_escrow] hands back once the transaction is built. *)
Lemma create_escrow_returns (from_wallet : Wallet) (to_address : string)
    (amount_xrp days_until_release : Z) (memo : pystr) (w : World L)
    (tx : Transaction) :
  build_escrow from_wallet to_address amount_xrp days_until_release memo
               (clock w) = Ok tx ->
  let run := create_escrow from_wallet to_address amount_xrp
                           days_until_release memo w in
  (exists r, fst run = Ok r)
  /\ (forall h, fst run = Ok (Some h) ->
      exists resp l1, net_submit tx from_wallet (net w) = (Ok resp, l1)
        /\ TransactionResult resp = Some "tesSUCCESS"
        /\ result_hash resp = Some h)
  /\ (forall resp l1 h,
      net_submit tx from_wallet (net w) = (Ok resp, l1) ->
      TransactionResult resp = Some "tesSUCCESS" ->
      result_hash resp = Some h ->
      -62135596800 <= clock w + days_until_release * 24 * 60 * 60
        <= 253402300799 ->
      fst run = Ok (Some h)).
Proof.
  intros Hb. py_unfold. rewrite Hb.
  destruct (net_submit tx from_wallet (net w)) as [[resp | e] l1].
  2:{ split; [eexists; reflexivity |]. split; [discriminate |].
      intros ? ? ? [=]. }
  destruct (decide (TransactionResult resp = Some "tesSUCCESS")) as [Hs | Hs].
  2:{ split; [eexists; reflexivity |]. split; [discriminate |].
      intros ? ? ? [= <- <-]. contradiction. }
  unfold result_hash_item. destruct (result_hash resp) as [h |] eqn:Eh.
  2:{ split; [eexists; reflexivity |]. split; [discriminate |].
      intros ? ? ? [= <- <-] _. rewrite Eh. discriminate. }
  cbn [fst snd clock console calls files net].
  unfold datetime_fromtimestamp.
  replace (clock w + days_until_release * 24 * 60 * 60 - RIPPLE_EPOCH + RIPPLE_EPOCH)
    with (clock w + days_until_release * 24 * 60 * 60) by lia.
  destruct (Z.ltb_spec (clock w + days_until_release * 24 * 60 * 60) (-62135596800));
    [| destruct (Z.ltb_spec 253402300799 (clock w + days_until_release * 24 * 60 * 60))];
    cbn [orb].
  - split; [eexists; reflexivity |]. split; [discriminate |].
    intros ? ? ? [= <- <-] _ _ ?. lia.
  - split; [eexists; reflexivity |]. split; [discriminate |].
    intros ? ? ? [= <- <-] _ _ ?. lia.
  - split; [eexists; reflexivity |]. split.
    + intros h' [= <-]. eauto.
    + intros ? ? ? [= <- <-] _ Eh' _. cbn. congruence.
Qed.

End Execution.

(** ** What the console shows does not depend on seeds

    Two runs are compared statement by statement, their worlds kept in
    step by [same_view]. *)

Create HintDb agree.

Section SeedOblivious.
Context {L : Type} `{LedgerClient L}.

(** The ledger identifies a signer by its address. *)
Hypothesis signer_by_address : forall tx address seed1 seed2 l,
  net_submit tx (mkWallet address seed1) l
  = net_submit tx (mkWallet address seed2) l.

Lemma same_view_refl (w : World L) : same_view w w.
Proof. repeat split. Qed.

Lemma agree_bind {A B} (m1 m2 : Py L A) (k1 k2 : A -> Py L B) :
  agree m1 m2 -> (forall a, agree (k1 a) (k2 a)) ->
  agree (m1 ≫= k1) (m2 ≫= k2).
Proof.
  intros Hm Hk w1 w2 Hw. unfold mbind, Py_bind.
  destruct (Hm w1 w2 Hw) as [Hr Hv].
  destruct (m1 w1) as [[a1 | e1] w1'], (m2 w2) as [[a2 | e2] w2'];
    cbn [fst snd] in Hr, Hv; try discriminate.
  - injection Hr as ->. apply Hk, Hv.
  - injection Hr as ->. cbn [fst snd]. auto.
Qed.

Lemma agree_ret {A} (a : A) : agree (mret a : Py L A) (mret a).
Proof. intros w1 w2 Hw. split; [reflexivity | exact Hw]. Qed.

Lemma agree_try {A} (b1 b2 : Py L A) (h1 h2 : exn -> Py L A) :
  agree b1 b2 -> (forall e, agree (h1 e) (h2 e)) ->
  agree (try_except b1 h1) (try_except b2 h2).
Proof.
  intros Hb Hh w1 w2 Hw. unfold try_except.
  destruct (Hb w1 w2 Hw) as [Hr Hv].
  destruct (b1 w1) as [[a1 | e1] w1'], (b2 w2) as [[a2 | e2] w2'];
    cbn [fst snd] in Hr, Hv; try discriminate.
  - cbn [fst snd]. auto.
  - injection Hr as ->. apply Hh, Hv.
Qed.

Lemma agree_print (line : string) : agree (print line : Py L unit) (print line).
Proof.
  intros w1 w2 (Hc & Ho & Hn). unfold print, same_view. cbn.
  rewrite Ho. auto.
Qed.

Lemma agree_lift {A} (r : res A) : agree (lift r : Py L A) (lift r).
Proof. intros w1 w2 Hw. split; [reflexivity | exact Hw]. Qed.

Lemma agree_time : agree (time_time : Py L Z) time_time.
Proof. intros w1 w2 Hw. split; [cbn; f_equal; apply Hw | exact Hw]. Qed.

Lemma agree_sleep (secs : Z) : agree (time_sleep secs : Py L unit) (time_sleep secs).
Proof.
  intros w1 w2 (Hc & Ho & Hn). unfold time_sleep, same_view. cbn.
  rewrite Hc. auto.
Qed.

(** The saved file holds the seeds; it is no part of the view. *)
Lemma agree_dump (name : string) (d1 d2 : WalletData) :
  agree (json_dump_to name d1 : Py L unit) (json_dump_to name d2).
Proof. intros w1 w2 (Hc & Ho & Hn). unfold json_dump_to, same_view. cbn. auto. Qed.

Lemma agree_faucet (address : string) :
  agree (requests_post address) (requests_post address).
Proof.
  intros w1 w2 (Hc & Ho & Hn). unfold requests_post, same_view. rewrite Hn.
  destruct (net_faucet address (net w2)) as [r l']. cbn. auto.
Qed.

Lemma agree_balance (address : string) :
  agree (xrpl_get_balance address) (xrpl_get_balance address).
Proof.
  intros w1 w2 (Hc & Ho & Hn). unfold xrpl_get_balance, same_view. rewrite Hn.
  destruct (net_balance address (net w2)) as [r l']. cbn. auto.
Qed.

Lemma agree_submit (tx : Transaction) (address seed1 seed2 : string) :
  agree (submit_and_wait tx (mkWallet address seed1))
        (submit_and_wait tx (mkWallet address seed2)).
Proof.
  intros w1 w2 (Hc & Ho & Hn). unfold submit_and_wait, same_view.
  rewrite Hn, (signer_by_address tx address seed1 seed2).
  destruct (net_submit tx (mkWallet address seed2) (net w2)) as [r l']. cbn. auto.
Qed.

#[local] Hint Resolve agree_ret agree_print agree_lift agree_time agree_sleep
  agree_dump agree_faucet agree_balance agree_submit : agree.

(** Compare two runs of the same statements. *)
Ltac agree_step :=
  first
    [ apply agree_bind; [| intros ?]
    | apply agree_try; [| intros ?]
    | solve [auto with agree]
    | match goal with
      | |- agree (if ?c then _ else _) (if ?c then _ else _) => destruct c
      | |- agree (match ?c with _ => _ end) (match ?c with _ => _ end) =>
          destruct c
      end ].

Lemma agree_get_balance (address seed1 seed2 : string) :
  agree (get_balance (mkWallet address seed1))
        (get_balance (mkWallet address seed2)).
Proof. unfold get_balance. cbn [classic_address]. repeat agree_step. Qed.

Lemma agree_fund_wallet (address seed1 seed2 : string) :
  agree (fund_wallet (mkWallet address seed1))
        (fund_wallet (mkWallet address seed2)).
Proof. unfold fund_wallet. cbn [classic_address]. repeat agree_step. Qed.

Lemma agree_send_payment (address seed1 seed2 to_address : string)
    (amount_xrp : Z) (memo : pystr) :
  agree (send_payment (mkWallet address seed1) to_address amount_xrp memo)
        (send_payment (mkWallet address seed2) to_address amount_xrp memo).
Proof.
  unfold send_payment, build_payment. cbn [classic_address].
  repeat agree_step.
Qed.

Lemma agree_create_escrow (address seed1 seed2 to_address : string)
    (amount_xrp days_until_release : Z) (memo : pystr) :
  agree (create_escrow (mkWallet address seed1) to_address amount_xrp
                       days_until_release memo)
        (create_escrow (mkWallet address seed2) to_address amount_xrp
                       days_until_release memo).
Proof.
  unfold create_escrow, build_escrow. cbn [classic_address].
  repeat agree_step.
Qed.

Lemma agree_milestone_steps (a_owner a_gc a_sub : string)
    (s1 s2 s3 s1' s2' s3' : string) :
  agree (milestone_steps (mkWallet a_owner s1) (mkWallet a_gc s2)
                         (mkWallet a_sub s3))
        (milestone_steps (mkWallet a_owner s1') (mkWallet a_gc s2')
                         (mkWallet a_sub s3')).
Proof.
  unfold milestone_steps. cbn [classic_address seed].
  pose proof agree_fund_wallet. pose proof agree_get_balance.
  pose proof agree_send_payment. pose proof agree_create_escrow.
  repeat agree_step.
Qed.

End SeedOblivious.

(** ** Escrow release time and delay validation *)

(** C3, as stated, fails: with a delay of 0 or -1 days [create_escrow]
    raises nothing, builds an escrow operation and sends it to the
    network. *)
Lemma C3_counterexample :
  build_escrow owner0 "rContractor" 50 0 [] 1700000000
  = Ok (TxEscrowCreate
          (EscrowCreate.mk "rOwner" "rContractor" "50000000" 753315200 None))
  /\ calls (snd (create_escrow owner0 "rContractor" 50 0 []
                   (initial_world 1700000000 past_release_script)))
     = [CallSubmit
          (TxEscrowCreate
             (EscrowCreate.mk "rOwner" "rContractor" "50000000" 753315200 None))
          owner0]
  /\ calls (snd (create_escrow owner0 "rContractor" 50 (-1) []
                   (initial_world 1700000000 past_release_script)))
     = [CallSubmit
          (TxEscrowCreate
             (EscrowCreate.mk "rOwner" "rContractor" "50000000" 753228800 None))
          owner0].
Proof. repeat split; vm_compute; reflexivity. Qed.

(** C3 (amended): for every release delay of zero or fewer days, escrow
    construction performs no delay check.  It produces an escrow operation
    whose release time is the current time plus the delay, hence not later
    than the current ledger time, and submits that operation to the
    network. *)
Theorem C3_nonpositive_delay_is_built_and_submitted
    {L : Type} `{LedgerClient L} (from_wallet : Wallet) (to_address : string)
    (amount_xrp days_until_release : Z) (memo : pystr) (w : World L) :
  days_until_release <= 0 ->
  0 <= amount_xrp <= MAX_XRP ->
  Forall is_scalar memo ->
  exists tx,
    build_escrow from_wallet to_address amount_xrp days_until_release memo
                 (clock w) = Ok (TxEscrowCreate tx)
    /\ EscrowCreate.finish_after tx
       = clock w + days_until_release * 24 * 60 * 60 - RIPPLE_EPOCH
    /\ EscrowCreate.finish_after tx <= clock w - RIPPLE_EPOCH
    /\ calls (snd (create_escrow from_wallet to_address amount_xrp
                                 days_until_release memo w))
       = calls w ++ [CallSubmit (TxEscrowCreate tx) from_wallet].
Proof.
  intros Hd Ha Hm.
  destruct (build_escrow_ok from_wallet to_address amount_xrp days_until_release
              memo (clock w) Ha Hm) as (tx & Hb & _ & _ & _ & Hf & _).
  exists tx. split; [exact Hb |]. split; [exact Hf |].
  split; [rewrite Hf; lia |]. apply create_escrow_calls, Hb.
Qed.

Lemma C3_witness :
  exists tx,
    build_escrow owner0 "rContractor" 50 0 []
                 (clock (initial_world 1700000000 past_release_script))
    = Ok (TxEscrowCreate tx)
    /\ EscrowCreate.finish_after tx
       = clock (initial_world 1700000000 past_release_script)
         + 0 * 24 * 60 * 60 - RIPPLE_EPOCH
    /\ EscrowCreate.finish_after tx
       <= clock (initial_world 1700000000 past_release_script) - RIPPLE_EPOCH
    /\ calls (snd (create_escrow owner0 "rContractor" 50 0 []
                     (initial_world 1700000000 past_release_script)))
       = calls (initial_world 1700000000 past_release_script)
         ++ [CallSubmit (TxEscrowCreate tx) owner0].
Proof.
  apply (C3_nonpositive_delay_is_built_and_submitted owner0 "rContractor" 50 0 []
           (initial_world 1700000000 past_release_script)).
  - lia.
  - unfold MAX_XRP. lia.
  - constructor.
Defined.

(** The thirty years from 1970 to 2000 have 10957 days. *)
Lemma posix_of_year_2000 : posix_of_year 2000 = 10957 * 86400.
Proof. reflexivity. Qed.

Lemma ledger_time_shift (posix seconds : Z) :
  ledger_time (posix + seconds) = ledger_time posix + seconds.
Proof. unfold ledger_time. lia. Qed.

(** The constant [create_escrow] subtracts is the POSIX time of the
    ledger's epoch. *)
Lemma RIPPLE_EPOCH_is_year_2000 : RIPPLE_EPOCH = posix_of_year 2000.
Proof. reflexivity. Qed.

(** C6: for every positive release delay of [d] days and every clock
    reading [t] at the call, the escrow operation that is submitted carries
    the release time [t + d] days in the ledger's time domain: its
    [finish_after] is the number of seconds from 2000-01-01T00:00:00 UTC
    to the moment [d] days after [t], which is the ledger time of [t] plus
    the delay and lies after it. *)
Theorem C6_release_time_is_submission_time_plus_delay
    {L : Type} `{LedgerClient L} (from_wallet : Wallet) (to_address : string)
    (amount_xrp days_until_release : Z) (memo : pystr) (w : World L) :
  0 < days_until_release ->
  0 <= amount_xrp <= MAX_XRP ->
  Forall is_scalar memo ->
  exists tx,
    calls (snd (create_escrow from_wallet to_address amount_xrp
                              days_until_release memo w))
    = calls w ++ [CallSubmit (TxEscrowCreate tx) from_wallet]
    /\ EscrowCreate.finish_after tx
       = ledger_time (clock w + days_until_release * 86400)
    /\ EscrowCreate.finish_after tx
       = ledger_time (clock w) + days_until_release * 86400
    /\ ledger_time (clock w) < EscrowCreate.finish_after tx.
Proof.
  intros Hd Ha Hm.
  destruct (build_escrow_ok from_wallet to_address amount_xrp days_until_release
              memo (clock w) Ha Hm) as (tx & Hb & _ & _ & _ & Hf & _).
  exists tx. split; [apply create_escrow_calls, Hb |].
  rewrite Hf, RIPPLE_EPOCH_is_year_2000, ledger_time_shift.
  unfold ledger_time. repeat split; lia.
Qed.

Lemma C6_witness :
  exists tx,
    calls (snd (create_escrow owner0 "rContractor" 50 7 []
                  (initial_world 1700000000 past_release_script)))
    = calls (initial_world 1700000000 past_release_script)
      ++ [CallSubmit (TxEscrowCreate tx) owner0]
    /\ EscrowCreate.finish_after tx
       = ledger_time
           (clock (initial_world 1700000000 past_release_script) + 7 * 86400)
    /\ EscrowCreate.finish_after tx
       = ledger_time (clock (initial_world 1700000000 past_release_script))
         + 7 * 86400
    /\ ledger_time (clock (initial_world 1700000000 past_release_script))
       < EscrowCreate.finish_after tx.
Proof.
  apply (C6_release_time_is_submission_time_plus_delay owner0 "rContractor" 50 7 []
           (initial_world 1700000000 past_release_script)).
  - lia.
  - unfold MAX_XRP. lia.
  - constructor.
Defined.


(** ** Memo slot *)

(** C5, as stated, fails on the empty memo: nothing is stored, so neither
    the text nor the category tag can be read back from the payment or the
    escrow.  It also fails on a text holding a lone surrogate, which cannot
    be encoded: no transaction is built. *)
Lemma C5_counterexample :
  build_payment owner0 "rContractor" 25 []
  = Ok (TxPayment (Payment.mk "rOwner" "rContractor" "25000000" None))
  /\ decode_memos (Payment.memos (Payment.mk "rOwner" "rContractor" "25000000" None))
     <> Some ([], pystr_of_string "construction-payment")
  /\ build_escrow owner0 "rContractor" 50 7 [] 1700000000
     = Ok (TxEscrowCreate
             (EscrowCreate.mk "rOwner" "rContractor" "50000000" 753920000 None))
  /\ decode_memos
       (EscrowCreate.memos
          (EscrowCreate.mk "rOwner" "rContractor" "50000000" 753920000 None))
     <> Some ([], pystr_of_string "construction-escrow")
  /\ build_payment owner0 "rContractor" 25 [55357]
     = Raise (Exception "UnicodeEncodeError" "surrogates not allowed").
Proof. repeat split; try (vm_compute; reflexivity); discriminate. Qed.

(** C5 (amended): for every memo text that is not empty and consists of
    Unicode scalar values, the encoding into the memo slot is lossless:
    decoding the stored MemoData and MemoType of the payment, and of the
    escrow, recovers the memo text and the category tag. *)
Theorem C5_memo_round_trip (from_wallet : Wallet) (to_address : string)
    (amount_xrp days_until_release current_time : Z) (memo : pystr) :
  memo <> [] ->
  Forall is_scalar memo ->
  0 <= amount_xrp <= MAX_XRP ->
  (exists tx,
      build_payment from_wallet to_address amount_xrp memo = Ok tx
      /\ decode_memos (tx_memos tx)
         = Some (memo, pystr_of_string "construction-payment"))
  /\ (exists tx,
         build_escrow from_wallet to_address amount_xrp days_until_release memo
                      current_time = Ok tx
         /\ decode_memos (tx_memos tx)
            = Some (memo, pystr_of_string "construction-escrow")).
Proof.
  intros Hne Hm Ha. split.
  - destruct (build_payment_ok from_wallet to_address amount_xrp memo Ha Hm)
      as (tx & Hb & _ & _ & _ & _ & Hd).
    exists (TxPayment tx). split; [exact Hb | exact (Hd Hne)].
  - destruct (build_escrow_ok from_wallet to_address amount_xrp
                days_until_release memo current_time Ha Hm)
      as (tx & Hb & _ & _ & _ & _ & _ & Hd).
    exists (TxEscrowCreate tx). split; [exact Hb | exact (Hd Hne)].
Qed.

Lemma C5_witness :
  (exists tx,
      build_payment owner0 "rContractor" 25 memo_ne = Ok tx
      /\ decode_memos (tx_memos tx)
         = Some (memo_ne, pystr_of_string "construction-payment"))
  /\ (exists tx,
         build_escrow owner0 "rContractor" 25 7 memo_ne 1700000000 = Ok tx
         /\ decode_memos (tx_memos tx)
            = Some (memo_ne, pystr_of_string "construction-escrow")).
Proof.
  apply (C5_memo_round_trip owner0 "rContractor" 25 7 1700000000 memo_ne).
  - discriminate.
  - repeat constructor; vm_compute; congruence.
  - unfold MAX_XRP. lia.
Defined.

(** C9: a payment or an escrow built with the empty memo carries no memo
    field at all, so the category tag is left out with it; a built
    transaction has a memo field, holding the tag, only when the memo text
    is not empty. *)
Theorem C9_empty_memo_leaves_out_memo_and_tag (from_wallet : Wallet)
    (to_address : string) (amount_xrp days_until_release current_time : Z) :
  0 <= amount_xrp <= MAX_XRP ->
  build_payment from_wallet to_address amount_xrp []
  = Ok (TxPayment
          (Payment.mk (classic_address from_wallet) to_address
                      (str_of_Z (amount_xrp * DROPS_PER_XRP)) None))
  /\ build_escrow from_wallet to_address amount_xrp days_until_release []
                  current_time
     = Ok (TxEscrowCreate
             (EscrowCreate.mk (classic_address from_wallet) to_address
                (str_of_Z (amount_xrp * DROPS_PER_XRP))
                (current_time + days_until_release * 24 * 60 * 60 - RIPPLE_EPOCH)
                None))
  /\ (forall memo tx,
         build_payment from_wallet to_address amount_xrp memo = Ok tx ->
         (memo = [] <-> tx_memos tx = None))
  /\ (forall memo tx,
         build_escrow from_wallet to_address amount_xrp days_until_release memo
                      current_time = Ok tx ->
         (memo = [] <-> tx_memos tx = None)).
Proof.
  intros Ha. repeat split.
  - unfold build_payment. rewrite (xrp_to_drops_in_range _ Ha). reflexivity.
  - unfold build_escrow. rewrite (xrp_to_drops_in_range _ Ha). reflexivity.
  - eapply build_payment_memos; eassumption.
  - eapply build_payment_memos; eassumption.
  - eapply build_escrow_memos; eassumption.
  - eapply build_escrow_memos; eassumption.
Qed.

Lemma C9_witness :
  build_payment owner0 "rContractor" 25 []
  = Ok (TxPayment
          (Payment.mk (classic_address owner0) "rContractor"
                      (str_of_Z (25 * DROPS_PER_XRP)) None))
  /\ build_escrow owner0 "rContractor" 25 7 [] 1700000000
     = Ok (TxEscrowCreate
             (EscrowCreate.mk (classic_address owner0) "rContractor"
                (str_of_Z (25 * DROPS_PER_XRP))
                (1700000000 + 7 * 24 * 60 * 60 - RIPPLE_EPOCH) None))
  /\ (forall memo tx,
         build_payment owner0 "rContractor" 25 memo = Ok tx ->
         (memo = [] <-> tx_memos tx = None))
  /\ (forall memo tx,
         build_escrow owner0 "rContractor" 25 7 memo 1700000000 = Ok tx ->
         (memo = [] <-> tx_memos tx = None)).
Proof.
  apply (C9_empty_memo_leaves_out_memo_and_tag owner0 "rContractor" 25 7 1700000000).
  unfold MAX_XRP. lia.
Defined.

(** ** Amount field *)

(** C7: for every positive amount, a whole number [drops] of drops within
    the ledger's range, however the amount of XRP is written (whole or
    with decimals) and whatever the library does with amounts that are no
    whole number of drops, the payment and the escrow built for it carry
    the same serialized amount field: the decimal numeral of [drops], from
    which [drops] is read back exactly.  For a whole number [a] of XRP
    these are the transactions of the two methods' builders, and [drops]
    is [a] million. *)
Theorem C7_payment_and_escrow_amount_fields_agree
    (inexact : Number -> res string)
    (from1 from2 : Wallet) (to1 to2 : string)
    (amount_xrp : Number) (drops days_until_release current_time : Z)
    (memo1 memo2 : pystr) :
  is_drops amount_xrp drops ->
  0 < drops <= 100000000000000000 ->
  Forall is_scalar memo1 ->
  Forall is_scalar memo2 ->
  exists payment_tx escrow_tx,
    build_payment_number inexact from1 to1 amount_xrp memo1 = Ok payment_tx
    /\ build_escrow_number inexact from2 to2 amount_xrp days_until_release
                           memo2 current_time = Ok escrow_tx
    /\ tx_amount payment_tx = tx_amount escrow_tx
    /\ tx_amount payment_tx = str_of_Z drops
    /\ decode_amount payment_tx = Some drops
    /\ decode_amount escrow_tx = Some drops
    /\ (forall a : Z, amount_xrp = whole a ->
        build_payment from1 to1 a memo1 = Ok payment_tx
        /\ build_escrow from2 to2 a days_until_release memo2 current_time
           = Ok escrow_tx
        /\ drops = a * 1000000).
Proof.
  intros Hd Hn Hm1 Hm2.
  destruct (build_payment_number_ok inexact from1 to1 amount_xrp drops memo1
              Hd Hn Hm1) as (p & Hp & Hpa).
  destruct (build_escrow_number_ok inexact from2 to2 amount_xrp drops
              days_until_release memo2 current_time Hd Hn Hm2)
    as (e & He & Hea).
  exists (TxPayment p), (TxEscrowCreate e).
  unfold decode_amount. cbn [tx_amount]. rewrite Hpa, Hea, Z_of_str_of_Z.
  split; [exact Hp |]. split; [exact He |].
  split; [reflexivity |]. split; [reflexivity |].
  split; [reflexivity |]. split; [reflexivity |].
  intros a Ea. subst amount_xrp.
  rewrite <- (build_payment_number_whole inexact).
  rewrite <- (build_escrow_number_whole inexact).
  split; [exact Hp |]. split; [exact He |].
  apply is_drops_whole, Hd.
Qed.

Lemma C7_witness :
  exists payment_tx escrow_tx,
    build_payment_number refuse_inexact owner0 "rContractor"
                         (mkNumber 125 (-1)) [] = Ok payment_tx
    /\ build_escrow_number refuse_inexact gc0 "rSubcontractor"
                           (mkNumber 125 (-1)) 7 memo_ne 1700000000
       = Ok escrow_tx
    /\ tx_amount payment_tx = tx_amount escrow_tx
    /\ tx_amount payment_tx = str_of_Z 12500000
    /\ decode_amount payment_tx = Some 12500000
    /\ decode_amount escrow_tx = Some 12500000
    /\ (forall a : Z, mkNumber 125 (-1) = whole a ->
        build_payment owner0 "rContractor" a [] = Ok payment_tx
        /\ build_escrow gc0 "rSubcontractor" a 7 memo_ne 1700000000
           = Ok escrow_tx
        /\ 12500000 = a * 1000000).
Proof.
  apply (C7_payment_and_escrow_amount_fields_agree refuse_inexact owner0 gc0
           "rContractor" "rSubcontractor" (mkNumber 125 (-1)) 12500000 7
           1700000000 [] memo_ne).
  - reflexivity.
  - lia.
  - constructor.
  - repeat constructor; vm_compute; congruence.
Defined.


(** ** What the two methods return *)

(** C10, as stated, fails: the ledger outcome code is [tesSUCCESS], yet
    [send_payment] returns [None], because the balance read that follows
    the success report raises inside the same [try].  And an exception does
    escape when the memo cannot be encoded: the transaction is built before
    the [try] is entered. *)
Lemma C10_counterexample :
  build_payment owner0 "rContractor" 25 []
  = Ok (TxPayment (Payment.mk "rOwner" "rContractor" "25000000" None))
  /\ fst (net_submit
            (TxPayment (Payment.mk "rOwner" "rContractor" "25000000" None))
            owner0 balance_outage_script)
     = Ok (mkResponse (Some "tesSUCCESS") (Some "TX1") (Some true) "tesSUCCESS")
  /\ fst (send_payment owner0 "rContractor" 25 []
            (initial_world 1700000000 balance_outage_script))
     = Ok None
  /\ fst (send_payment owner0 "rContractor" 25 [55357]
            (initial_world 1700000000 balance_outage_script))
     = Raise (Exception "UnicodeEncodeError" "surrogates not allowed").
Proof. repeat split; vm_compute; reflexivity. Qed.

(** C10 (amended): once the transaction is built, no exception escapes
    [send_payment] or [create_escrow]: whatever submission and the wait for
    validation raise is caught.  Each returns the transaction hash only
    when the ledger outcome code is [tesSUCCESS], and [None] otherwise.
    With outcome [tesSUCCESS] and a hash in the reply, [send_payment]
    returns the hash when the balance read that follows succeeds, and
    [create_escrow] returns it when the release date lies in the years the
    date type supports. *)
Theorem C10_hash_only_on_success_and_nothing_escapes
    {L : Type} `{LedgerClient L} (from_wallet : Wallet) (to_address : string)
    (amount_xrp days_until_release : Z) (memo : pystr) (w : World L)
    (payment_tx escrow_tx : Transaction) :
  build_payment from_wallet to_address amount_xrp memo = Ok payment_tx ->
  build_escrow from_wallet to_address amount_xrp days_until_release memo
               (clock w) = Ok escrow_tx ->
  let paid := send_payment from_wallet to_address amount_xrp memo w in
  let locked := create_escrow from_wallet to_address amount_xrp
                              days_until_release memo w in
  (exists r, fst paid = Ok r)
  /\ (forall h, fst paid = Ok (Some h) ->
      exists resp l1, net_submit payment_tx from_wallet (net w) = (Ok resp, l1)
        /\ TransactionResult resp = Some "tesSUCCESS"
        /\ result_hash resp = Some h)
  /\ (forall resp l1 h bal l2,
      net_submit payment_tx from_wallet (net w) = (Ok resp, l1) ->
      TransactionResult resp = Some "tesSUCCESS" ->
      result_hash resp = Some h ->
      net_balance (classic_address from_wallet) l1 = (Ok bal, l2) ->
      0 <= bal <= MAX_XRP * DROPS_PER_XRP ->
      fst paid = Ok (Some h))
  /\ (exists r, fst locked = Ok r)
  /\ (forall h, fst locked = Ok (Some h) ->
      exists resp l1, net_submit escrow_tx from_wallet (net w) = (Ok resp, l1)
        /\ TransactionResult resp = Some "tesSUCCESS"
        /\ result_hash resp = Some h)
  /\ (forall resp l1 h,
      net_submit escrow_tx from_wallet (net w) = (Ok resp, l1) ->
      TransactionResult resp = Some "tesSUCCESS" ->
      result_hash resp = Some h ->
      -62135596800 <= clock w + days_until_release * 24 * 60 * 60
        <= 253402300799 ->
      fst locked = Ok (Some h)).
Proof.
  intros Hp He paid locked.
  destruct (send_payment_returns from_wallet to_address amount_xrp memo w
              payment_tx Hp) as (P1 & P2 & P3).
  destruct (create_escrow_returns from_wallet to_address amount_xrp
              days_until_release memo w escrow_tx He) as (E1 & E2 & E3).
  repeat split; assumption.
Qed.

Lemma C10_witness :
  let w := initial_world 1700000000 success_script in
  let payment_tx := TxPayment (Payment.mk "rOwner" "rContractor" "25000000" None) in
  let escrow_tx :=
    TxEscrowCreate
      (EscrowCreate.mk "rOwner" "rContractor" "25000000" 753920000 None) in
  let paid := send_payment owner0 "rContractor" 25 [] w in
  let locked := create_escrow owner0 "rContractor" 25 7 [] w in
  (exists r, fst paid = Ok r)
  /\ (forall h, fst paid = Ok (Some h) ->
      exists resp l1, net_submit payment_tx owner0 (net w) = (Ok resp, l1)
        /\ TransactionResult resp = Some "tesSUCCESS"
        /\ result_hash resp = Some h)
  /\ (forall resp l1 h bal l2,
      net_submit payment_tx owner0 (net w) = (Ok resp, l1) ->
      TransactionResult resp = Some "tesSUCCESS" ->
      result_hash resp = Some h ->
      net_balance (classic_address owner0) l1 = (Ok bal, l2) ->
      0 <= bal <= MAX_XRP * DROPS_PER_XRP ->
      fst paid = Ok (Some h))
  /\ (exists r, fst locked = Ok r)
  /\ (forall h, fst locked = Ok (Some h) ->
      exists resp l1, net_submit escrow_tx owner0 (net w) = (Ok resp, l1)
        /\ TransactionResult resp = Some "tesSUCCESS"
        /\ result_hash resp = Some h)
  /\ (forall resp l1 h,
      net_submit escrow_tx owner0 (net w) = (Ok resp, l1) ->
      TransactionResult resp = Some "tesSUCCESS" ->
      result_hash resp = Some h ->
      -62135596800 <= clock w + 7 * 24 * 60 * 60 <= 253402300799 ->
      fst locked = Ok (Some h)).
Proof.
  apply (C10_hash_only_on_success_and_nothing_escapes owner0 "rContractor" 25 7 []
           (initial_world 1700000000 success_script)).
  - vm_compute. reflexivity.
  - vm_compute. reflexivity.
Defined.

(** On that ledger both methods do return the hash. *)
Example success_script_returns_hash :
  fst (send_payment owner0 "rContractor" 25 []
         (initial_world 1700000000 success_script)) = Ok (Some "TX1")
  /\ fst (create_escrow owner0 "rContractor" 25 7 []
            (initial_world 1700000000 success_script)) = Ok (Some "TX1").
Proof. split; vm_compute; reflexivity. Qed.


(** ** Seeds and the console *)

(** C4, as stated, fails: wallet creation prints the seed, so two runs
    that differ only in the owner's seed print different console output. *)
Lemma C4_counterexample :
  console (snd (main (initial_world 1700000000
                        (ledger_with_owner_seed "sOwnerSeed")))) !! 7%nat
  = Some "   Seed: sOwnerSeed"
  /\ console (snd (main (initial_world 1700000000
                           (ledger_with_owner_seed "sOwnerSeed"))))
     <> console (snd (main (initial_world 1700000000
                              (ledger_with_owner_seed "sOtherSeed")))).
Proof.
  split; [vm_compute; reflexivity |].
  intros E. apply (f_equal (fun l => l !! 7%nat)) in E.
  vm_compute in E. discriminate.
Qed.

(** C4 (amended): wallet creation prints the new wallet's address and its
    seed, once.  No later step prints a seed: funding, balance query,
    payment, escrow creation and the milestone steps as a whole return the
    same values and print the same console output for wallets that differ
    only in their seeds, on a ledger that identifies signers by address. *)
Theorem C4_only_wallet_creation_prints_the_seed
    {L : Type} `{LedgerClient L} (label : string)
    (a_owner a_gc a_sub s1 s2 s3 s1' s2' s3' to_address : string)
    (amount_xrp days_until_release : Z) (memo : pystr) (w : World L) :
  (forall tx address seed1 seed2 l,
      net_submit tx (mkWallet address seed1) l
      = net_submit tx (mkWallet address seed2) l) ->
  let owner := mkWallet a_owner s1 in
  let owner' := mkWallet a_owner s1' in
  let same {A} (m m' : Py L A) :=
    fst (m w) = fst (m' w) /\ console (snd (m w)) = console (snd (m' w)) in
  console (snd (create_wallet label w))
  = console w
    ++ [nl +:+ "✅ Created " +:+ label;
        "   Address: " +:+ classic_address (fst (net_new_wallet (net w)));
        "   Seed: " +:+ seed (fst (net_new_wallet (net w)));
        "   ⚠️  SAVE THIS SEED - IT WILL NOT BE SHOWN AGAIN"]
  /\ same (fund_wallet owner) (fund_wallet owner')
  /\ same (get_balance owner) (get_balance owner')
  /\ same (send_payment owner to_address amount_xrp memo)
          (send_payment owner' to_address amount_xrp memo)
  /\ same (create_escrow owner to_address amount_xrp days_until_release memo)
          (create_escrow owner' to_address amount_xrp days_until_release memo)
  /\ same (milestone_steps owner (mkWallet a_gc s2) (mkWallet a_sub s3))
          (milestone_steps owner' (mkWallet a_gc s2') (mkWallet a_sub s3')).
Proof.
  intros Hsign owner owner' same.
  assert (Hsame : forall A (m m' : Py L A), agree m m' -> same A m m').
  { intros A m m' Hm. destruct (Hm w w (same_view_refl w)) as (Hr & _ & Hc & _).
    exact (conj Hr Hc). }
  split; [| split; [| split; [| split; [| split]]]].
  - py_unfold. destruct (net_new_wallet (net w)) as [wallet l'].
    cbn [fst snd console classic_address seed].
    rewrite <- !app_assoc. reflexivity.
  - apply Hsame, agree_fund_wallet.
  - apply Hsame, agree_get_balance.
  - apply Hsame, agree_send_payment, Hsign.
  - apply Hsame, agree_create_escrow, Hsign.
  - apply Hsame, agree_milestone_steps, Hsign.
Qed.

Lemma C4_witness :
  let w := initial_world 1700000000 happy_script in
  let owner := mkWallet "rOwner" "sOwnerSeed" in
  let owner' := mkWallet "rOwner" "sOtherSeed" in
  let same {A} (m m' : Py Script A) :=
    fst (m w) = fst (m' w) /\ console (snd (m w)) = console (snd (m' w)) in
  console (snd (create_wallet "Owner Wallet" w))
  = console w
    ++ [nl +:+ "✅ Created " +:+ "Owner Wallet";
        "   Address: " +:+ classic_address (fst (net_new_wallet (net w)));
        "   Seed: " +:+ seed (fst (net_new_wallet (net w)));
        "   ⚠️  SAVE THIS SEED - IT WILL NOT BE SHOWN AGAIN"]
  /\ same (fund_wallet owner) (fund_wallet owner')
  /\ same (get_balance owner) (get_balance owner')
  /\ same (send_payment owner "rContractor" 25 memo_ne)
          (send_payment owner' "rContractor" 25 memo_ne)
  /\ same (create_escrow owner "rContractor" 25 7 memo_ne)
          (create_escrow owner' "rContractor" 25 7 memo_ne)
  /\ same (milestone_steps owner (mkWallet "rContractor" "sA")
                           (mkWallet "rSubcontractor" "sB"))
          (milestone_steps owner' (mkWallet "rContractor" "sC")
                           (mkWallet "rSubcontractor" "sD")).
Proof.
  apply (C4_only_wallet_creation_prints_the_seed "Owner Wallet"
           "rOwner" "rContractor" "rSubcontractor"
           "sOwnerSeed" "sA" "sB" "sOtherSeed" "sC" "sD"
           "rContractor" 25 7 memo_ne (initial_world 1700000000 happy_script)).
  intros tx address seed1 seed2 l. reflexivity.
Defined.


(** ** The milestone flow: which failures stop it *)

Create HintDb grows.

Section Flow.
Context {L : Type} `{LedgerClient L}.

Lemma grows_bind {A B} (m : Py L A) (k : A -> Py L B) :
  grows m -> (forall a, grows (k a)) -> grows (m ≫= k).
Proof.
  intros Hm Hk w. unfold mbind, Py_bind.
  destruct (Hm w) as [l1 E1]. destruct (m w) as [[a | e] w1]; cbn [snd] in *.
  - destruct (Hk a w1) as [l2 E2]. exists (l1 ++ l2).
    rewrite E2, E1, app_assoc. reflexivity.
  - exists l1. exact E1.
Qed.

Lemma grows_try {A} (body : Py L A) (handler : exn -> Py L A) :
  grows body -> (forall e, grows (handler e)) -> grows (try_except body handler).
Proof.
  intros Hb Hh w. unfold try_except.
  destruct (Hb w) as [l1 E1]. destruct (body w) as [[a | e] w1]; cbn [snd] in *.
  - exists l1. exact E1.
  - destruct (Hh e w1) as [l2 E2]. exists (l1 ++ l2).
    rewrite E2, E1, app_assoc. reflexivity.
Qed.

Lemma grows_ret {A} (a : A) : grows (mret a : Py L A).
Proof. intros w. exists []. cbn. rewrite app_nil_r. reflexivity. Qed.

Lemma grows_lift {A} (r : res A) : grows (lift r : Py L A).
Proof. intros w. exists []. cbn. rewrite app_nil_r. reflexivity. Qed.

Lemma grows_print (line : string) : grows (print line : Py L unit).
Proof. intros w. exists []. cbn. rewrite app_nil_r. reflexivity. Qed.

Lemma grows_time : grows (time_time : Py L Z).
Proof. intros w. exists []. cbn. rewrite app_nil_r. reflexivity. Qed.

Lemma grows_sleep (secs : Z) : grows (time_sleep secs : Py L unit).
Proof. intros w. exists []. cbn. rewrite app_nil_r. reflexivity. Qed.

Lemma grows_dump (name : string) (data : WalletData) :
  grows (json_dump_to name data : Py L unit).
Proof. intros w. exists []. cbn. rewrite app_nil_r. reflexivity. Qed.

Lemma grows_faucet (address : string) : grows (requests_post address).
Proof.
  intros w. unfold requests_post.
  destruct (net_faucet address (net w)). eexists. reflexivity.
Qed.

Lemma grows_balance (address : string) : grows (xrpl_get_balance address).
Proof.
  intros w. unfold xrpl_get_balance.
  destruct (net_balance address (net w)). eexists. reflexivity.
Qed.

Lemma grows_submit (tx : Transaction) (wallet : Wallet) :
  grows (submit_and_wait tx wallet).
Proof.
  intros w. unfold submit_and_wait.
  destruct (net_submit tx wallet (net w)). eexists. reflexivity.
Qed.

#[local] Hint Resolve grows_ret grows_lift grows_print grows_time grows_sleep
  grows_dump grows_faucet grows_balance grows_submit : grows.

Ltac grows_step :=
  first
    [ apply grows_bind; [| intros ?]
    | apply grows_try; [| intros ?]
    | solve [auto with grows]
    | match goal with
      | |- grows (if ?c then _ else _) => destruct c
      | |- grows (match ?c with _ => _ end) => destruct c
      end ].

Lemma grows_get_balance (wallet : Wallet) : grows (get_balance wallet).
Proof. unfold get_balance. repeat grows_step. Qed.

Lemma grows_send_payment (from_wallet : Wallet) (to_address : string)
    (amount_xrp : Z) (memo : pystr) :
  grows (send_payment from_wallet to_address amount_xrp memo).
Proof. unfold send_payment. repeat grows_step. Qed.

(** The request log after [m; k] extends the log after [m]. *)
Lemma calls_after_bind {A B} (m : Py L A) (k : A -> Py L B) (w : World L) :
  (forall a, grows (k a)) ->
  exists more, calls (snd ((m ≫= k) w)) = calls (snd (m w)) ++ more.
Proof.
  intros Hk. unfold mbind, Py_bind. destruct (m w) as [[a | e] w1]; cbn [snd].
  - apply Hk.
  - exists []. rewrite app_nil_r. reflexivity.
Qed.

Variables owner_wallet gc_wallet sub_wallet : Wallet.

Let step2 : string := nl +:+ "📋 Step 2: Funding Owner Wallet from Testnet Faucet".
Let step3 : string :=
  nl +:+ "📋 Step 3: Owner Creates Escrow for GC (Foundation Milestone)".
Let step4 : string :=
  nl +:+ "📋 Step 4: Owner Pays GC (Direct Payment - No Escrow)".
Let step5 : string := nl +:+ "📋 Step 5: GC Pays Subcontractor".
Let memo3 : pystr :=
  pystr_of_string "Project #2025-001: Foundation Complete - $100,000 USD".
Let memo4 : pystr := pystr_of_string "Project #2025-001: Progress Payment #1".
Let memo5 : pystr :=
  pystr_of_string "Project #2025-001: Concrete Work - Division 03".

(** Funding that fails ends the flow: nothing is submitted. *)
Lemma funding_failure_halts (w w1 : World L) :
  fund_wallet owner_wallet (snd (print step2 w)) = (Ok false, w1) ->
  milestone_steps owner_wallet gc_wallet sub_wallet w
  = print "❌ Simulation failed - could not fund owner wallet" w1.
Proof.
  intros Hf. unfold milestone_steps, mbind, Py_bind.
  unfold step2 in Hf. cbn [print fst snd clock console calls files net] in *. rewrite Hf. reflexivity.
Qed.

(** An escrow that is not created ends the flow: no payment is
    submitted. *)
Lemma escrow_failure_halts (w w1 w2 : World L) (escrow_hash : option string) :
  fund_wallet owner_wallet (snd (print step2 w)) = (Ok true, w1) ->
  create_escrow owner_wallet (classic_address gc_wallet) 50 7 memo3
                (snd (print step3 w1)) = (Ok escrow_hash, w2) ->
  truthy_hash escrow_hash = false ->
  milestone_steps owner_wallet gc_wallet sub_wallet w
  = print "❌ Simulation failed - could not create escrow" w2.
Proof.
  intros Hf He Hh. unfold milestone_steps, mbind, Py_bind.
  unfold step2 in Hf. unfold step3, memo3 in He.
  cbn [print fst snd clock console calls files net] in *. rewrite Hf. cbn [negb]. rewrite He, Hh. reflexivity.
Qed.

(** The first payment does not gate the second: whatever [send_payment]
    returned at step 4, the payment of step 5 is submitted. *)
Lemma second_payment_is_submitted_whatever_the_first_returned
    (w w1 w2 w3 : World L) (escrow_hash gc_payment_hash : option string)
    (tx : Transaction) :
  fund_wallet owner_wallet (snd (print step2 w)) = (Ok true, w1) ->
  create_escrow owner_wallet (classic_address gc_wallet) 50 7 memo3
                (snd (print step3 w1)) = (Ok escrow_hash, w2) ->
  truthy_hash escrow_hash = true ->
  send_payment owner_wallet (classic_address gc_wallet) 25 memo4
               (snd (print step4 w2)) = (Ok gc_payment_hash, w3) ->
  build_payment gc_wallet (classic_address sub_wallet) 10 memo5 = Ok tx ->
  In (CallSubmit tx gc_wallet)
     (calls (snd (milestone_steps owner_wallet gc_wallet sub_wallet w))).
Proof.
  intros Hf He Hh Hp Hb. unfold milestone_steps.
  unfold mbind at 1 2 3 4 5 6 7 8, Py_bind at 1 2 3 4 5 6 7 8.
  unfold step2 in Hf. unfold step3, memo3 in He. unfold step4, memo4 in Hp.
  unfold memo5 in Hb.
  cbn [print time_sleep fst snd clock console calls files net] in *.
  rewrite Hf. cbn [negb]. rewrite He, Hh. cbn [negb]. rewrite Hp.
  match goal with
  | |- In _ (calls (snd ((?m ≫= ?k) ?w5))) =>
      destruct (calls_after_bind m k w5) as [more Emore];
      [| pose proof (send_payment_calls gc_wallet (classic_address sub_wallet)
                       10 memo5 w5 tx Hb) as Hc ]
  end.
  - intros a. pose proof grows_get_balance. repeat grows_step.
  - rewrite Emore. cbv zeta in Hc. unfold memo5 in Hc. apply in_or_app. left.
    destruct Hc as [-> | ->]; apply in_or_app; right; left; reflexivity.
Qed.

End Flow.


(** ** Failing steps in concrete runs *)

(** C1, evaluated where the code departs from it: on a ledger whose
    faucet grants 60 XRP the escrow of 50 commits, the payment of 25 is
    rejected for lack of funds, and the payment of step 5 is submitted all
    the same.  A failed payment does not stop the later payment step. *)
Theorem C1_rejected_payment_does_not_stop_step_5 :
  let run := simulate_construction_payment_flow
               (initial_world 1700000000 (fresh_ledger 60000000 10)) in
  submitted (snd run)
  = [("rOwner", "rContractor", "50000000");
     ("rOwner", "rContractor", "25000000");
     ("rContractor", "rSubcontractor", "10000000")]
  /\ take 6 (drop 31 (console (snd run)))
     = ["   ❌ Payment failed: tecUNFUNDED_PAYMENT";
        nl +:+ "📋 Step 5: GC Pays Subcontractor";
        nl +:+ "📤 Sending 10 XRP...";
        "   From: rContractor";
        "   To: rSubcontractor";
        "   ❌ Payment error: Account not found."].
Proof. split; vm_compute; reflexivity. Qed.

(** The step before it is gated: on a ledger whose faucet grants 10 XRP
    the escrow is rejected and no payment is submitted. *)
Example rejected_escrow_stops_the_flow :
  let run := simulate_construction_payment_flow
               (initial_world 1700000000 (fresh_ledger 10000000 10)) in
  fst run = Ok tt
  /\ submitted (snd run) = [("rOwner", "rContractor", "50000000")]
  /\ last (console (snd run))
     = Some "❌ Simulation failed - could not create escrow".
Proof. repeat split; vm_compute; reflexivity. Qed.

(** C2, evaluated where the code departs from it: on that ledger the
    outcome of the payment of step 4 is indeterminate, it is reported as an
    error and recorded as [None], and the contractor's payment of step 5,
    which depends on it, is submitted and commits. *)
Theorem C2_indeterminate_payment_does_not_stop_step_5 :
  let run := simulate_construction_payment_flow
               (initial_world 1700000000 timeout_script) in
  fst run = Ok tt
  /\ submitted (snd run)
     = [("rOwner", "rContractor", "50000000");
        ("rOwner", "rContractor", "25000000");
        ("rContractor", "rSubcontractor", "10000000")]
  /\ take 9 (drop 31 (console (snd run)))
     = ["   ❌ Payment error: Transaction failed - latest ledger is greater than LastLedgerSequence";
        nl +:+ "📋 Step 5: GC Pays Subcontractor";
        nl +:+ "📤 Sending 10 XRP...";
        "   From: rContractor";
        "   To: rSubcontractor";
        "   ✅ Payment successful!";
        "   Hash: TX3";
        "   Validated: True";
        "💵 Balance for rContractor: 14.999990 XRP"]
  /\ take 3 (drop 50 (console (snd run)))
     = ["   Escrow Created: TX1";
        "   GC Payment: None";
        "   Subcontractor Payment: TX3"].
Proof. repeat split; vm_compute; reflexivity. Qed.

(** An indeterminate escrow does stop the flow, the way a rejected one
    does; the console tells the two apart. *)
Example indeterminate_escrow_stops_the_flow :
  let lost := mkScript [owner0; gc0; sub0] [Ok 200] [Ok 1000000000]
                       [Raise validation_timeout] in
  let refused := mkScript [owner0; gc0; sub0] [Ok 200] [Ok 1000000000]
                          [Ok (rejected "tecUNFUNDED")] in
  let run_lost := simulate_construction_payment_flow
                    (initial_world 1700000000 lost) in
  let run_refused := simulate_construction_payment_flow
                       (initial_world 1700000000 refused) in
  submitted (snd run_lost) = [("rOwner", "rContractor", "50000000")]
  /\ submitted (snd run_refused) = submitted (snd run_lost)
  /\ last (console (snd run_lost))
     = Some "❌ Simulation failed - could not create escrow"
  /\ last (console (snd run_refused)) = last (console (snd run_lost))
  /\ console (snd run_lost) !! 24%nat
     = Some "   ❌ Escrow error: Transaction failed - latest ledger is greater than LastLedgerSequence"
  /\ console (snd run_refused) !! 24%nat
     = Some "   ❌ Escrow creation failed: tecUNFUNDED".
Proof. repeat split; vm_compute; reflexivity. Qed.


(** ** Runs on the in-memory ledger *)

(** A payment the payer can cover commits. *)
Lemma mem_submit_payment (tx : Payment.t) (signer : Wallet) (m : MemLedger) (bal drops : Z) :
  mem_balances m !! Payment.account tx = Some bal ->
  Payment.amount tx = str_of_Z drops ->
  0 < drops -> drops + mem_fee m <= bal ->
  mem_submit (TxPayment tx) signer m
  = (Ok (committed (mem_seq m)),
     mem_after_payment (Payment.account tx) (Payment.destination tx) drops bal m).
Proof.
  intros Hb Ha Hd Hf. unfold mem_submit. cbn [tx_account tx_amount].
  rewrite Hb, Ha, Z_of_str_of_Z.
  destruct (Z.leb_spec drops 0); [lia |].
  destruct (Z.ltb_spec bal (drops + mem_fee m)); [lia |]. reflexivity.
Qed.

(** The payer's balance after a payment to another account. *)
Lemma mem_after_payment_payer (payer dest : string) (drops bal : Z) (m : MemLedger) :
  payer <> dest ->
  mem_balances (mem_after_payment payer dest drops bal m) !! payer
  = Some (bal - drops - mem_fee m).
Proof.
  intros Hne. unfold mem_after_payment. cbn [mem_balances].
  rewrite lookup_insert_ne by congruence. apply lookup_insert_eq.
Qed.

(** [drops_to_xrp] accepts every balance the ledger can hold. *)
Lemma drops_to_xrp_in_range (drops : Z) :
  0 <= drops <= MAX_XRP * DROPS_PER_XRP -> drops_to_xrp drops = Ok (mkDecimal drops).
Proof.
  intros Hd. unfold drops_to_xrp.
  destruct (Z.ltb_spec drops 0); [lia |].
  destruct (Z.ltb_spec (MAX_XRP * DROPS_PER_XRP) drops); [lia | reflexivity].
Qed.

(** The fields of a built transaction, whatever the memo. *)
Lemma build_payment_fields (from_wallet : Wallet) (to_address : string)
    (amount_xrp : Z) (memo : pystr) (tx : Transaction) :
  build_payment from_wallet to_address amount_xrp memo = Ok tx ->
  exists p, tx = TxPayment p
    /\ Payment.account p = classic_address from_wallet
    /\ Payment.destination p = to_address
    /\ xrp_to_drops amount_xrp = Ok (Payment.amount p).
Proof.
  unfold build_payment. destruct (xrp_to_drops amount_xrp) as [amount | e];
    cbn [mbind res_bind]; [| discriminate].
  destruct (truthy_pystr memo).
  - destruct (bytes_hex <$> utf8_encode memo) as [data | e];
      cbn [mbind res_bind]; [| discriminate].
    destruct (bytes_hex <$> utf8_encode (pystr_of_string "construction-payment"))
      as [tag | e]; cbn [mbind res_bind]; [| discriminate].
    intros [= <-]. eexists. repeat split.
  - intros [= <-]. eexists. repeat split.
Qed.

Lemma build_escrow_fields (from_wallet : Wallet) (to_address : string)
    (amount_xrp days_until_release : Z) (memo : pystr) (current_time : Z)
    (tx : Transaction) :
  build_escrow from_wallet to_address amount_xrp days_until_release memo
               current_time = Ok tx ->
  exists e, tx = TxEscrowCreate e
    /\ EscrowCreate.account e = classic_address from_wallet
    /\ EscrowCreate.destination e = to_address
    /\ xrp_to_drops amount_xrp = Ok (EscrowCreate.amount e)
    /\ EscrowCreate.finish_after e
       = current_time + days_until_release * 24 * 60 * 60 - RIPPLE_EPOCH.
Proof.
  unfold build_escrow. destruct (xrp_to_drops amount_xrp) as [amount | e];
    cbn [mbind res_bind]; [| discriminate].
  destruct (truthy_pystr memo).
  - destruct (bytes_hex <$> utf8_encode memo) as [data | e];
      cbn [mbind res_bind]; [| discriminate].
    destruct (bytes_hex <$> utf8_encode (pystr_of_string "construction-escrow"))
      as [tag | e]; cbn [mbind res_bind]; [| discriminate].
    intros [= <-]. eexists. repeat split.
  - intros [= <-]. eexists. repeat split.
Qed.

(** [send_payment] on the in-memory ledger, for a payer with the funds. *)
Lemma mem_send_payment (from_wallet : Wallet) (to_address : string) (amount_xrp : Z) (memo : pystr)
    (w : World MemLedger) (tx : Transaction) (bal : Z) :
  build_payment from_wallet to_address amount_xrp memo = Ok tx ->
  mem_balances (net w) !! classic_address from_wallet = Some bal ->
  classic_address from_wallet <> to_address ->
  0 < amount_xrp <= MAX_XRP ->
  0 <= mem_fee (net w) ->
  amount_xrp * DROPS_PER_XRP + mem_fee (net w) <= bal <= MAX_XRP * DROPS_PER_XRP ->
  send_payment from_wallet to_address amount_xrp memo w =
    (Ok (Some ("TX" +:+ str_of_Z (mem_seq (net w)))),
     mkWorld (clock w)
       (console w ++
          [nl +:+ "📤 Sending " +:+ str_of_Z amount_xrp +:+ " XRP...";
           "   From: " +:+ classic_address from_wallet;
           "   To: " +:+ to_address;
           "   ✅ Payment successful!";
           "   Hash: " +:+ ("TX" +:+ str_of_Z (mem_seq (net w)));
           "   Validated: True";
           "💵 Balance for " +:+ classic_address from_wallet +:+ ": "
             +:+ str_of_Decimal (mkDecimal (bal - amount_xrp * DROPS_PER_XRP - mem_fee (net w)))
             +:+ " XRP"])
       (calls w ++ [CallSubmit tx from_wallet; CallBalance (classic_address from_wallet)])
       (files w)
       (mem_after_payment (classic_address from_wallet) to_address
          (amount_xrp * DROPS_PER_XRP) bal (net w))).
Proof.
  intros Hbuild Hb Hne Ha Hf Hbal.
  destruct (build_payment_fields _ _ _ _ _ Hbuild) as (p & -> & Hacc & Hdest & Hamt).
  rewrite xrp_to_drops_in_range in Hamt by lia. injection Hamt as Hamt.
  py_unfold. rewrite Hbuild.
  cbn [net_submit Mem_client].
  rewrite (mem_submit_payment p from_wallet (net w) bal (amount_xrp * DROPS_PER_XRP));
    [| rewrite Hacc; exact Hb | congruence | unfold DROPS_PER_XRP; lia | lia].
  rewrite Hacc, Hdest.
  destruct (decide (TransactionResult (committed (mem_seq (net w))) = Some "tesSUCCESS"))
    as [_ | Hn]; [| exfalso; apply Hn; reflexivity].
  cbn [result_hash_item result_hash committed validated default
       fst snd clock console calls files net net_balance Mem_client str_of_bool].
  rewrite (mem_after_payment_payer _ _ _ _ _ Hne).
  rewrite drops_to_xrp_in_range by (unfold DROPS_PER_XRP, MAX_XRP in *; lia).
  cbn [fst snd clock console calls files net].
  rewrite <- !app_assoc. reflexivity.
Qed.


(** An escrow the payer can cover commits. *)
Lemma mem_submit_escrow (tx : EscrowCreate.t) (signer : Wallet) (m : MemLedger) (bal drops : Z) :
  mem_balances m !! EscrowCreate.account tx = Some bal ->
  EscrowCreate.amount tx = str_of_Z drops ->
  0 < drops -> drops + mem_fee m <= bal ->
  mem_submit (TxEscrowCreate tx) signer m
  = (Ok (committed (mem_seq m)),
     mem_after_escrow (EscrowCreate.account tx) (EscrowCreate.destination tx) drops bal
                      (EscrowCreate.finish_after tx) m).
Proof.
  intros Hb Ha Hd Hf. unfold mem_submit. cbn [tx_account tx_amount].
  rewrite Hb, Ha, Z_of_str_of_Z.
  destruct (Z.leb_spec drops 0); [lia |].
  destruct (Z.ltb_spec bal (drops + mem_fee m)); [lia |]. reflexivity.
Qed.

(** [create_escrow] on the in-memory ledger, for a payer with the funds. *)
Lemma mem_create_escrow (from_wallet : Wallet) (to_address : string)
    (amount_xrp days_until_release : Z) (memo : pystr)
    (w : World MemLedger) (tx : Transaction) (bal : Z) :
  build_escrow from_wallet to_address amount_xrp days_until_release memo (clock w)
  = Ok tx ->
  mem_balances (net w) !! classic_address from_wallet = Some bal ->
  0 < amount_xrp <= MAX_XRP ->
  amount_xrp * DROPS_PER_XRP + mem_fee (net w) <= bal ->
  -62135596800 <= clock w + days_until_release * 24 * 60 * 60 <= 253402300799 ->
  create_escrow from_wallet to_address amount_xrp days_until_release memo w =
    (Ok (Some ("TX" +:+ str_of_Z (mem_seq (net w)))),
     mkWorld (clock w)
       (console w ++
          [nl +:+ "🔒 Creating escrow for " +:+ str_of_Z amount_xrp +:+ " XRP...";
           "   From: " +:+ classic_address from_wallet;
           "   To: " +:+ to_address;
           "   Release after: " +:+ str_of_Z days_until_release +:+ " days";
           "   ✅ Escrow created!";
           "   Hash: " +:+ ("TX" +:+ str_of_Z (mem_seq (net w)));
           "   Funds locked until: " +:+
             ("<" +:+ str_of_Z (clock w + days_until_release * 24 * 60 * 60) +:+ ">")])
       (calls w ++ [CallSubmit tx from_wallet])
       (files w)
       (mem_after_escrow (classic_address from_wallet) to_address
          (amount_xrp * DROPS_PER_XRP) bal
          (clock w + days_until_release * 24 * 60 * 60 - RIPPLE_EPOCH) (net w))).
Proof.
  intros Hbuild Hb Ha Hbal Hdate.
  destruct (build_escrow_fields _ _ _ _ _ _ _ Hbuild)
    as (e & -> & Hacc & Hdest & Hamt & Hfin).
  rewrite xrp_to_drops_in_range in Hamt by lia. injection Hamt as Hamt.
  py_unfold. rewrite Hbuild.
  cbn [net_submit Mem_client].
  rewrite (mem_submit_escrow e from_wallet (net w) bal (amount_xrp * DROPS_PER_XRP));
    [| rewrite Hacc; exact Hb | congruence | unfold DROPS_PER_XRP; lia | lia].
  rewrite Hacc, Hdest, Hfin.
  destruct (decide (TransactionResult (committed (mem_seq (net w))) = Some "tesSUCCESS"))
    as [_ | Hn]; [| exfalso; apply Hn; reflexivity].
  cbn [result_hash_item result_hash committed
       fst snd clock console calls files net].
  replace (clock w + days_until_release * 24 * 60 * 60 - RIPPLE_EPOCH + RIPPLE_EPOCH)
    with (clock w + days_until_release * 24 * 60 * 60) by lia.
  unfold datetime_fromtimestamp.
  destruct (Z.ltb_spec (clock w + days_until_release * 24 * 60 * 60) (-62135596800));
    [lia |].
  destruct (Z.ltb_spec 253402300799 (clock w + days_until_release * 24 * 60 * 60));
    [lia |].
  cbn [orb fst snd clock console calls files net].
  rewrite <- !app_assoc. reflexivity.
Qed.

(** [get_balance] of a funded account. *)
Lemma mem_get_balance (wallet : Wallet) (w : World MemLedger) (bal : Z) :
  mem_balances (net w) !! classic_address wallet = Some bal ->
  0 <= bal <= MAX_XRP * DROPS_PER_XRP ->
  get_balance wallet w =
    (Ok (mkDecimal bal),
     mkWorld (clock w)
       (console w ++ ["💵 Balance for " +:+ classic_address wallet +:+ ": "
                      +:+ str_of_Decimal (mkDecimal bal) +:+ " XRP"])
       (calls w ++ [CallBalance (classic_address wallet)])
       (files w) (net w)).
Proof.
  intros Hb Hr. py_unfold. cbn [net_balance Mem_client]. rewrite Hb.
  rewrite drops_to_xrp_in_range by assumption. reflexivity.
Qed.

(** [fund_wallet] on the in-memory ledger: the faucet always grants. *)
Lemma mem_fund_wallet (wallet : Wallet) (w : World MemLedger) :
  let bal := default 0 (mem_balances (net w) !! classic_address wallet)
             + mem_grant (net w) in
  0 <= bal <= MAX_XRP * DROPS_PER_XRP ->
  fund_wallet wallet w =
    (Ok true,
     mkWorld (clock w + 4)
       (console w ++ [nl +:+ "💰 Funding wallet " +:+ classic_address wallet +:+ "...";
                      "   ✅ Funded! Balance: " +:+ str_of_Decimal (mkDecimal bal)
                      +:+ " XRP"])
       (calls w ++ [CallFaucet (classic_address wallet);
                    CallBalance (classic_address wallet)])
       (files w) (mem_after_faucet (classic_address wallet) (net w))).
Proof.
  intros bal Hr. py_unfold. cbn [net_faucet net_balance Mem_client Z.eqb Pos.eqb].
  cbn [fst snd clock console calls files net mem_balances].
  rewrite lookup_insert_eq. fold bal.
  rewrite drops_to_xrp_in_range by assumption.
  cbn [fst snd clock console calls files net].
  rewrite <- !app_assoc. reflexivity.
Qed.

(** [create_wallet] hands out the next wallet of the generator. *)
Lemma mem_create_wallet (label : string) (w : World MemLedger) (wallet : Wallet)
    (rest : list Wallet) :
  mem_wallets (net w) = wallet :: rest ->
  create_wallet label w =
    (Ok wallet,
     mkWorld (clock w)
       (console w ++ [nl +:+ "✅ Created " +:+ label;
                      "   Address: " +:+ classic_address wallet;
                      "   Seed: " +:+ seed wallet;
                      "   ⚠️  SAVE THIS SEED - IT WILL NOT BE SHOWN AGAIN"])
       (calls w) (files w)
       (mkMem rest (mem_balances (net w)) (mem_escrows (net w)) (mem_fee (net w))
              (mem_grant (net w)) (mem_seq (net w)))).
Proof.
  intros Hw. py_unfold. cbn [net_new_wallet Mem_client]. rewrite Hw.
  cbn [fst snd clock console calls files net].
  rewrite <- !app_assoc. reflexivity.
Qed.

(** Sequencing after a statement that completed. *)
Lemma bind_ok {L A B} (m : Py L A) (k : A -> Py L B) (w w1 : World L) (a : A)
    (r : res B * World L) :
  m w = (Ok a, w1) -> k a w1 = r -> (m ≫= k) w = r.
Proof. intros Hm Hk. unfold mbind, Py_bind. rewrite Hm. exact Hk. Qed.

(** The clock reading enters a built escrow through [finish_after] only. *)
Lemma build_escrow_at (from_wallet : Wallet) (to_address : string)
    (amount_xrp days_until_release : Z) (memo : pystr) (e0 : EscrowCreate.t)
    (current_time : Z) :
  build_escrow from_wallet to_address amount_xrp days_until_release memo 0
  = Ok (TxEscrowCreate e0) ->
  build_escrow from_wallet to_address amount_xrp days_until_release memo current_time
  = Ok (TxEscrowCreate
          (EscrowCreate.mk (EscrowCreate.account e0) (EscrowCreate.destination e0)
             (EscrowCreate.amount e0)
             (current_time + days_until_release * 24 * 60 * 60 - RIPPLE_EPOCH)
             (EscrowCreate.memos e0))).
Proof.
  unfold build_escrow. destruct (xrp_to_drops amount_xrp) as [amount | e];
    cbn [mbind res_bind]; [| discriminate].
  destruct (truthy_pystr memo).
  - destruct (bytes_hex <$> utf8_encode memo) as [data | e];
      cbn [mbind res_bind]; [| discriminate].
    destruct (bytes_hex <$> utf8_encode (pystr_of_string "construction-escrow"))
      as [tag | e]; cbn [mbind res_bind]; [| discriminate].
    intros [= <-]. reflexivity.
  - intros [= <-]. reflexivity.
Qed.

Lemma truthy_hash_TX (s : string) : truthy_hash (Some ("TX" +:+ s)) = true.
Proof. reflexivity. Qed.

(** Symbolic execution of the flow: [bind_ok] runs one statement, [tidy]
    projects the world it left and reads the balances it touched. *)
Ltac tidy :=
  cbv beta zeta;
  cbn [clock console calls files net negb initial_world
       mem_wallets mem_balances mem_escrows mem_fee mem_grant mem_seq
       fresh_ledger mem_after_payment mem_after_escrow mem_after_faucet
       classic_address seed owner0 gc0 sub0];
  repeat (rewrite lookup_insert_eq || rewrite lookup_empty
          || rewrite lookup_insert_ne by discriminate);
  cbn [default]; rewrite ?truthy_hash_TX; cbn [negb].
Ltac side :=
  tidy; unfold MAX_XRP, DROPS_PER_XRP in *;
  first [lia | discriminate | reflexivity].
Ltac run_print := eapply bind_ok; [reflexivity |]; tidy.

(** C8: in the default milestone simulation on a ledger whose faucet
    grants 1000 XRP and which charges [fee] drops per operation, the escrow
    of 50, the payment of 25 from Owner to Contractor and the payment of 10
    from Contractor to Subcontractor all commit, and the final balances
    read Owner = 925, Contractor = 15, Subcontractor = 10 XRP, less the fees
    each payer paid: two for the Owner, one for the Contractor. *)
Theorem C8_final_balances_of_the_default_simulation (now fee : Z) :
  0 <= now <= 4102444800 ->
  0 <= fee <= 1000000 ->
  let run := simulate_construction_payment_flow
               (initial_world now (fresh_ledger 1000000000 fee)) in
  fst run = Ok tt
  /\ mem_balances (net (snd run)) !! "rOwner" = Some (925000000 - 2 * fee)
  /\ mem_balances (net (snd run)) !! "rContractor" = Some (15000000 - fee)
  /\ mem_balances (net (snd run)) !! "rSubcontractor" = Some 10000000
  /\ mem_escrows (net (snd run))
     = [mkEscrowed "rOwner" "rContractor" 50000000
                   (now + 4 + 7 * 86400 - RIPPLE_EPOCH)]
  /\ take 3 (drop 46 (console (snd run)))
     = ["💵 Balance for rOwner: "
          +:+ str_of_Decimal (mkDecimal (925000000 - 2 * fee)) +:+ " XRP";
        "💵 Balance for rContractor: "
          +:+ str_of_Decimal (mkDecimal (15000000 - fee)) +:+ " XRP";
        "💵 Balance for rSubcontractor: "
          +:+ str_of_Decimal (mkDecimal 10000000) +:+ " XRP"].
Proof.
  intros Hnow Hfee run.
  assert (exists w', run = (Ok tt, w')
            /\ mem_balances (net w') !! "rOwner" = Some (925000000 - 2 * fee)
            /\ mem_balances (net w') !! "rContractor" = Some (15000000 - fee)
            /\ mem_balances (net w') !! "rSubcontractor" = Some 10000000
            /\ mem_escrows (net w')
               = [mkEscrowed "rOwner" "rContractor" 50000000
                             (now + 4 + 7 * 86400 - RIPPLE_EPOCH)]
            /\ take 3 (drop 46 (console w'))
               = ["💵 Balance for rOwner: "
                    +:+ str_of_Decimal (mkDecimal (925000000 - 2 * fee)) +:+ " XRP";
                  "💵 Balance for rContractor: "
                    +:+ str_of_Decimal (mkDecimal (15000000 - fee)) +:+ " XRP";
                  "💵 Balance for rSubcontractor: "
                    +:+ str_of_Decimal (mkDecimal 10000000) +:+ " XRP"])
    as (w' & Hrun & Hprops).
  { eexists. split.
    - subst run. unfold simulate_construction_payment_flow.
      do 4 run_print.
      do 3 (eapply bind_ok; [apply mem_create_wallet; reflexivity |]; tidy).
      unfold milestone_steps.
      run_print.
      eapply bind_ok; [apply mem_fund_wallet; side |]; tidy.
      run_print.
      eapply bind_ok;
        [eapply mem_create_escrow;
         [apply build_escrow_at; vm_compute; reflexivity | side ..] |]; tidy.
      run_print.
      eapply bind_ok;
        [eapply mem_send_payment; [vm_compute; reflexivity | side ..] |]; tidy.
      eapply bind_ok; [reflexivity |]; tidy.
      run_print.
      eapply bind_ok;
        [eapply mem_send_payment; [vm_compute; reflexivity | side ..] |]; tidy.
      do 3 run_print.
      do 3 (eapply bind_ok; [eapply mem_get_balance; side |]; tidy).
      do 9 run_print.
      eapply bind_ok; [reflexivity |]; tidy.
      run_print.
      reflexivity.
    - tidy. cbn [app take drop]. unfold DROPS_PER_XRP.
      replace (0 + 1000000000 - 50 * 1000000 - fee - 25 * 1000000 - fee)
        with (925000000 - 2 * fee) by lia.
      replace (0 + 25 * 1000000 - 10 * 1000000 - fee)
        with (15000000 - fee) by lia.
      replace (0 + 10 * 1000000) with 10000000 by lia.
      replace (7 * 24 * 60 * 60) with (7 * 86400) by lia.
      split; [f_equal; lia |]. split; [f_equal; lia |].
      split; [reflexivity |]. split; [| reflexivity].
      do 2 f_equal. }
  rewrite Hrun. exact (conj eq_refl Hprops).
Qed.

Lemma C8_witness :
  let run := simulate_construction_payment_flow
               (initial_world 1700000000 (fresh_ledger 1000000000 0)) in
  fst run = Ok tt
  /\ mem_balances (net (snd run)) !! "rOwner" = Some (925000000 - 2 * 0)
  /\ mem_balances (net (snd run)) !! "rContractor" = Some (15000000 - 0)
  /\ mem_balances (net (snd run)) !! "rSubcontractor" = Some 10000000
  /\ mem_escrows (net (snd run))
     = [mkEscrowed "rOwner" "rContractor" 50000000
                   (1700000000 + 4 + 7 * 86400 - RIPPLE_EPOCH)]
  /\ take 3 (drop 46 (console (snd run)))
     = ["💵 Balance for rOwner: "
          +:+ str_of_Decimal (mkDecimal (925000000 - 2 * 0)) +:+ " XRP";
        "💵 Balance for rContractor: "
          +:+ str_of_Decimal (mkDecimal (15000000 - 0)) +:+ " XRP";
        "💵 Balance for rSubcontractor: "
          +:+ str_of_Decimal (mkDecimal 10000000) +:+ " XRP"].
Proof.
  apply (C8_final_balances_of_the_default_simulation 1700000000 0); lia.
Defined.

(** Without fees the final balance lines read 925, 15 and 10 XRP; with the
    fee of 10 drops they show the fees taken from each payer. *)
Example final_balance_lines :
  take 3 (drop 46 (console (snd (simulate_construction_payment_flow
                                   (initial_world 1700000000
                                      (fresh_ledger 1000000000 0))))))
  = ["💵 Balance for rOwner: 925.000000 XRP";
     "💵 Balance for rContractor: 15.000000 XRP";
     "💵 Balance for rSubcontractor: 10.000000 XRP"]
  /\ take 3 (drop 46 (console (snd (simulate_construction_payment_flow
                                      (initial_world 1700000000
                                         (fresh_ledger 1000000000 10))))))
     = ["💵 Balance for rOwner: 924.999980 XRP";
        "💵 Balance for rContractor: 14.999990 XRP";
        "💵 Balance for rSubcontractor: 10.000000 XRP"].
Proof. split; vm_compute; reflexivity. Qed.

(** * Further properties of the script *)

(** ** The methods *)

(** X1: [fund_wallet] never raises.  It returns [True] exactly when the
    faucet answered with status 200 and the balance read that follows
    succeeded with a balance the ledger can hold. *)
Theorem X1_fund_wallet_returns_whether_the_faucet_granted
    {L : Type} `{LedgerClient L} (wallet : Wallet) (w : World L) :
  exists funded,
    fst (fund_wallet wallet w) = Ok funded
    /\ (funded = true <->
        exists l1 bal l2,
          net_faucet (classic_address wallet) (net w) = (Ok 200, l1)
          /\ net_balance (classic_address wallet) l1 = (Ok bal, l2)
          /\ 0 <= bal <= MAX_XRP * DROPS_PER_XRP).
Proof.
  py_unfold.
  destruct (net_faucet (classic_address wallet) (net w)) as [[status | e] l1] eqn:Ef.
  2:{ exists false. split; [reflexivity |]. split; [discriminate |].
      intros (? & ? & ? & [=] & _). }
  destruct (Z.eqb_spec status 200) as [-> | Hs].
  2:{ exists false. split; [reflexivity |]. split; [discriminate |].
      intros (? & ? & ? & [= ? ?] & _). contradiction. }
  cbn [fst snd clock console calls files net].
  destruct (net_balance (classic_address wallet) l1) as [[bal | e] l2] eqn:Eb.
  2:{ exists false. split; [reflexivity |]. split; [discriminate |].
      intros (? & ? & ? & [= <-] & Eb' & _). congruence. }
  unfold drops_to_xrp.
  destruct (Z.ltb_spec bal 0);
    [| destruct (Z.ltb_spec (MAX_XRP * DROPS_PER_XRP) bal)].
  - exists false. split; [reflexivity |]. split; [discriminate |].
    intros (? & bal' & ? & [= <-] & Eb' & ?).
    assert (bal' = bal) by congruence. lia.
  - exists false. split; [reflexivity |]. split; [discriminate |].
    intros (? & bal' & ? & [= <-] & Eb' & ?).
    assert (bal' = bal) by congruence. lia.
  - exists true. split; [reflexivity |]. split; [| reflexivity].
    intros _. exists l1, bal, l2. repeat split; (assumption || lia).
Qed.

(** X2: [fund_wallet] always asks the faucet once.  It waits four seconds
    and reads the balance only after a status of 200; after any other
    answer, or none, it makes no other request and does not wait. *)
Theorem X2_fund_wallet_waits_and_reads_only_after_status_200
    {L : Type} `{LedgerClient L} (wallet : Wallet) (w : World L) :
  let after := snd (fund_wallet wallet w) in
  let address := classic_address wallet in
  (fst (net_faucet address (net w)) = Ok 200 ->
   calls after = calls w ++ [CallFaucet address; CallBalance address]
   /\ clock after = clock w + 4)
  /\ (fst (net_faucet address (net w)) <> Ok 200 ->
      calls after = calls w ++ [CallFaucet address]
      /\ clock after = clock w
      /\ fst (fund_wallet wallet w) = Ok false).
Proof.
  py_unfold.
  destruct (net_faucet (classic_address wallet) (net w)) as [[status | e] l1].
  2:{ cbn [fst]. split; [discriminate |]. intros _. repeat split. }
  cbn [fst]. destruct (Z.eqb_spec status 200) as [-> | Hs].
  2:{ split; [intros [=]; contradiction |]. intros _. repeat split. }
  split; [| intros Hn; contradiction].
  intros _. cbn [fst snd clock console calls files net].
  destruct (net_balance (classic_address wallet) l1) as [[bal | e] l2];
    [destruct (drops_to_xrp bal) |];
    cbn [fst snd clock console calls files net];
    rewrite <- app_assoc; split; reflexivity.
Qed.

(** X3: [get_balance] makes one balance request and is not guarded: when
    the read raises, the exception reaches the caller and nothing is
    printed; when it succeeds, the balance in XRP is printed on one line
    and returned. *)
Theorem X3_get_balance_lets_a_failed_read_escape
    {L : Type} `{LedgerClient L} (wallet : Wallet) (w : World L) :
  let run := get_balance wallet w in
  let address := classic_address wallet in
  calls (snd run) = calls w ++ [CallBalance address]
  /\ (forall e l, net_balance address (net w) = (Raise e, l) ->
      fst run = Raise e /\ console (snd run) = console w)
  /\ (forall bal l, net_balance address (net w) = (Ok bal, l) ->
      0 <= bal <= MAX_XRP * DROPS_PER_XRP ->
      fst run = Ok (mkDecimal bal)
      /\ console (snd run)
         = console w ++ ["💵 Balance for " +:+ address +:+ ": "
                         +:+ str_of_Decimal (mkDecimal bal) +:+ " XRP"]).
Proof.
  py_unfold.
  destruct (net_balance (classic_address wallet) (net w)) as [[bal | e] l1].
  - cbn [fst snd clock console calls files net].
    split; [destruct (drops_to_xrp bal); reflexivity |].
    split; [intros ? ? [=] |].
    intros bal' l [= <- <-] Hr. rewrite drops_to_xrp_in_range by assumption.
    split; reflexivity.
  - cbn [fst snd clock console calls files net].
    split; [reflexivity |]. split; [| intros ? ? [=]].
    intros e' l [= <- <-]. split; reflexivity.
Qed.

(** [str.encode] accepts exactly the texts made of scalar values. *)
Lemma utf8_encode_cp_ok_scalar (c : Z) (bs : list Z) :
  utf8_encode_cp c = Ok bs -> is_scalar c.
Proof.
  unfold utf8_encode_cp, is_scalar, is_code_point.
  destruct (Z.ltb_spec c 0); [discriminate |].
  destruct (Z.ltb_spec c 128).
  { intros _. split; [lia |]. unfold is_surrogate.
    apply andb_false_iff. left. apply Z.leb_gt. lia. }
  destruct (Z.ltb_spec c 2048).
  { intros _. split; [lia |]. unfold is_surrogate.
    apply andb_false_iff. left. apply Z.leb_gt. lia. }
  destruct (is_surrogate c) eqn:Es; [discriminate |].
  destruct (Z.ltb_spec c 65536); [intros _; split; [lia | reflexivity] |].
  destruct (Z.leb_spec c 1114111); [| discriminate].
  intros _. split; [lia | reflexivity].
Qed.

Lemma utf8_encode_ok_scalar (s : pystr) (bs : list Z) :
  utf8_encode s = Ok bs -> Forall is_scalar s.
Proof.
  revert bs. induction s as [| c s IH]; intros bs; [constructor |].
  cbn [utf8_encode]. destruct (utf8_encode_cp c) as [cs | e] eqn:Ec;
    cbn [mbind res_bind]; [| discriminate].
  destruct (utf8_encode s) as [rest | e]; cbn [mbind res_bind]; [| discriminate].
  intros _. constructor; [eapply utf8_encode_cp_ok_scalar, Ec | eapply IH; reflexivity].
Qed.

Lemma xrp_to_drops_ok_range (xrp : Z) (drops : string) :
  xrp_to_drops xrp = Ok drops -> 0 <= xrp <= MAX_XRP.
Proof.
  unfold xrp_to_drops. destruct (Z.ltb_spec xrp 0); [discriminate |].
  destruct (Z.ltb_spec MAX_XRP xrp); [discriminate |]. lia.
Qed.

(** A transaction is built exactly for an amount in range and an
    encodable memo. *)
Lemma build_payment_ok_iff (from_wallet : Wallet) (to_address : string)
    (amount_xrp : Z) (memo : pystr) :
  (exists tx, build_payment from_wallet to_address amount_xrp memo = Ok tx)
  <-> 0 <= amount_xrp <= MAX_XRP /\ Forall is_scalar memo.
Proof.
  split.
  - intros [tx Hb]. unfold build_payment in Hb.
    destruct (xrp_to_drops amount_xrp) as [amount | e] eqn:Ea;
      cbn [mbind res_bind] in Hb; [| discriminate].
    split; [eapply xrp_to_drops_ok_range, Ea |].
    destruct memo as [| c memo']; [constructor |]. cbn [truthy_pystr] in Hb.
    destruct (utf8_encode (c :: memo')) as [bs | e] eqn:Ee;
      [eapply utf8_encode_ok_scalar, Ee | discriminate].
  - intros [Ha Hm].
    destruct (build_payment_ok from_wallet to_address amount_xrp memo Ha Hm)
      as (tx & Hb & _). eauto.
Qed.

Lemma build_escrow_ok_iff (from_wallet : Wallet) (to_address : string)
    (amount_xrp days_until_release : Z) (memo : pystr) (current_time : Z) :
  (exists tx, build_escrow from_wallet to_address amount_xrp days_until_release
                           memo current_time = Ok tx)
  <-> 0 <= amount_xrp <= MAX_XRP /\ Forall is_scalar memo.
Proof.
  split.
  - intros [tx Hb]. unfold build_escrow in Hb.
    destruct (xrp_to_drops amount_xrp) as [amount | e] eqn:Ea;
      cbn [mbind res_bind] in Hb; [| discriminate].
    split; [eapply xrp_to_drops_ok_range, Ea |].
    destruct memo as [| c memo']; [constructor |]. cbn [truthy_pystr] in Hb.
    destruct (utf8_encode (c :: memo')) as [bs | e] eqn:Ee;
      [eapply utf8_encode_ok_scalar, Ee | discriminate].
  - intros [Ha Hm].
    destruct (build_escrow_ok from_wallet to_address amount_xrp
                days_until_release memo current_time Ha Hm) as (tx & Hb & _).
    eauto.
Qed.

(** X4: [send_payment] and [create_escrow] return to their caller exactly
    when the amount lies in the range [xrp_to_drops] accepts and the memo
    can be encoded.  Otherwise the exception of the conversion or of the
    encoding reaches the caller, and no request has been made. *)
Theorem X4_methods_raise_exactly_on_unbuildable_input
    {L : Type} `{LedgerClient L} (from_wallet : Wallet) (to_address : string)
    (amount_xrp days_until_release : Z) (memo : pystr) (w : World L) :
  let paid := send_payment from_wallet to_address amount_xrp memo w in
  let locked := create_escrow from_wallet to_address amount_xrp
                              days_until_release memo w in
  let buildable := 0 <= amount_xrp <= MAX_XRP /\ Forall is_scalar memo in
  ((exists r, fst paid = Ok r) <-> buildable)
  /\ ((exists r, fst locked = Ok r) <-> buildable)
  /\ (~ buildable ->
      (exists e, fst paid = Raise e) /\ calls (snd paid) = calls w
      /\ (exists e, fst locked = Raise e) /\ calls (snd locked) = calls w).
Proof.
  intros paid locked buildable. subst buildable.
  pose proof (build_payment_ok_iff from_wallet to_address amount_xrp memo) as Bp.
  pose proof (build_escrow_ok_iff from_wallet to_address amount_xrp
                days_until_release memo (clock w)) as Be.
  destruct (build_payment from_wallet to_address amount_xrp memo)
    as [ptx | pe] eqn:Hp;
    destruct (build_escrow from_wallet to_address amount_xrp days_until_release
                memo (clock w)) as [etx | ee] eqn:He.
  - destruct (send_payment_returns _ _ _ _ w ptx Hp) as (Rp & _).
    destruct (create_escrow_returns _ _ _ _ _ w etx He) as (Re & _).
    assert (Hb : 0 <= amount_xrp <= MAX_XRP /\ Forall is_scalar memo)
      by (apply Bp; eauto).
    split; [split; [intros _; exact Hb | intros _; exact Rp] |].
    split; [split; [intros _; exact Hb | intros _; exact Re] |].
    intros Hn. contradiction.
  - exfalso. destruct Be as [_ Be]. destruct Be as [tx Htx]; [| discriminate].
    apply Bp. eauto.
  - exfalso. destruct Bp as [_ Bp]. destruct Bp as [tx Htx]; [| discriminate].
    apply Be. eauto.
  - destruct (send_payment_build_raises _ _ _ _ w pe Hp) as [Rp Cp].
    destruct (create_escrow_build_raises _ _ _ _ _ w ee He) as [Re Ce].
    assert (Hn : ~ (0 <= amount_xrp <= MAX_XRP /\ Forall is_scalar memo)).
    { intros Hb. apply Bp in Hb as [tx Htx]. discriminate. }
    split; [| split].
    + split; [| intros Hb; contradiction].
      intros [r Hr]. subst paid. congruence.
    + split; [| intros Hb; contradiction].
      intros [r Hr]. subst locked. congruence.
    + intros _. subst paid locked. eauto 10.
Qed.

(** X5: [send_payment] submits the transaction it built and reads the
    payer's balance only after the ledger answered [tesSUCCESS] with a
    hash; after a rejection or an exception the submission is its only
    request. *)
Theorem X5_send_payment_reads_the_balance_only_after_success
    {L : Type} `{LedgerClient L} (from_wallet : Wallet) (to_address : string)
    (amount_xrp : Z) (memo : pystr) (w : World L) (tx : Transaction) :
  build_payment from_wallet to_address amount_xrp memo = Ok tx ->
  let after := snd (send_payment from_wallet to_address amount_xrp memo w) in
  (forall resp l1 h,
      net_submit tx from_wallet (net w) = (Ok resp, l1) ->
      TransactionResult resp = Some "tesSUCCESS" ->
      result_hash resp = Some h ->
      calls after = calls w ++ [CallSubmit tx from_wallet;
                                CallBalance (classic_address from_wallet)])
  /\ (forall resp l1,
         net_submit tx from_wallet (net w) = (Ok resp, l1) ->
         TransactionResult resp <> Some "tesSUCCESS" ->
         calls after = calls w ++ [CallSubmit tx from_wallet]
         /\ net after = l1)
  /\ (forall e l1,
         net_submit tx from_wallet (net w) = (Raise e, l1) ->
         calls after = calls w ++ [CallSubmit tx from_wallet]
         /\ net after = l1).
Proof.
  intros Hb. py_unfold. rewrite Hb.
  destruct (net_submit tx from_wallet (net w)) as [[resp | e] l1].
  2:{ split; [intros ? ? ? [=] |]. split; [intros ? ? [=] |].
      intros ? ? [= <- <-]. split; reflexivity. }
  destruct (decide (TransactionResult resp = Some "tesSUCCESS")) as [Hs | Hs].
  2:{ split; [intros ? ? ? [= <- <-]; contradiction |].
      split; [| intros ? ? [=]]. intros ? ? [= <- <-] _. split; reflexivity. }
  split; [| split; [intros ? ? [= <- <-]; contradiction | intros ? ? [=]]].
  intros ? ? h [= <- <-] _ Eh. unfold result_hash_item. rewrite Eh.
  cbn [fst snd clock console calls files net].
  destruct (net_balance (classic_address from_wallet) l1) as [[bal | e] l2];
    [destruct (drops_to_xrp bal) |];
    cbn [fst snd clock console calls files net];
    rewrite <- app_assoc; reflexivity.
Qed.

(** ** The flow as a whole *)

Section FlowOutcome.
Context {L : Type} `{LedgerClient L}.

Lemma step_adds_refl (w : World L) : step_adds w w [] [].
Proof. unfold step_adds. rewrite !app_nil_r. auto. Qed.

Lemma step_adds_trans (w1 w2 w3 : World L)
    (s1 s2 : list (string * string * string)) (f1 f2 : list string) :
  step_adds w1 w2 s1 f1 -> step_adds w2 w3 s2 f2 ->
  step_adds w1 w3 (s1 ++ s2) (f1 ++ f2).
Proof.
  intros (S1 & F1 & G1) (S2 & F2 & G2). unfold step_adds.
  rewrite S2, S1, F2, F1, G2, G1, !app_assoc. auto.
Qed.

(** A world that differs in clock and console only. *)
Lemma step_adds_same_log (w w' : World L) :
  calls w' = calls w -> files w' = files w -> step_adds w w' [] [].
Proof.
  intros Hc Hf. unfold step_adds, submitted, faucet_requests.
  rewrite Hc, Hf, !app_nil_r. auto.
Qed.

Lemma step_adds_calls (w w' : World L) (more : list NetCall)
    (subs : list (string * string * string)) (fau : list string) :
  calls w' = calls w ++ more -> files w' = files w ->
  omap (fun c => match c with
                 | CallSubmit tx _ =>
                     Some (tx_account tx, tx_destination tx, tx_amount tx)
                 | _ => None
                 end) more = subs ->
  omap (fun c => match c with CallFaucet a => Some a | _ => None end) more = fau ->
  step_adds w w' subs fau.
Proof.
  intros Hc Hf <- <-. unfold step_adds, submitted, faucet_requests.
  rewrite Hc, !omap_app. auto.
Qed.

Lemma fund_wallet_adds (wallet : Wallet) (w : World L) :
  exists funded w1,
    fund_wallet wallet w = (Ok funded, w1)
    /\ step_adds w w1 [] [classic_address wallet].
Proof.
  py_unfold.
  destruct (net_faucet (classic_address wallet) (net w)) as [[status | e] l1].
  2:{ do 2 eexists. split; [reflexivity |].
      eapply step_adds_calls; cbn [calls files]; reflexivity. }
  destruct (status =? 200).
  2:{ do 2 eexists. split; [reflexivity |].
      eapply step_adds_calls; cbn [calls files]; reflexivity. }
  cbn [fst snd clock console calls files net].
  destruct (net_balance (classic_address wallet) l1) as [[bal | e] l2];
    [destruct (drops_to_xrp bal) |];
    do 2 eexists; (split; [reflexivity |]);
    eapply step_adds_calls; cbn [calls files];
    rewrite <- ?app_assoc; reflexivity.
Qed.

Lemma get_balance_adds (wallet : Wallet) (w : World L) :
  exists r w1, get_balance wallet w = (r, w1) /\ step_adds w w1 [] [].
Proof.
  py_unfold.
  destruct (net_balance (classic_address wallet) (net w)) as [[bal | e] l1];
    [destruct (drops_to_xrp bal) |];
    do 2 eexists; (split; [reflexivity |]);
    eapply step_adds_calls; cbn [calls files]; reflexivity.
Qed.

Lemma send_payment_adds (from_wallet : Wallet) (to_address : string)
    (amount_xrp : Z) (memo : pystr) (w : World L) :
  0 <= amount_xrp <= MAX_XRP -> Forall is_scalar memo ->
  exists r w1,
    send_payment from_wallet to_address amount_xrp memo w = (Ok r, w1)
    /\ step_adds w w1
         [(classic_address from_wallet, to_address,
           str_of_Z (amount_xrp * DROPS_PER_XRP))] [].
Proof.
  intros Ha Hm.
  destruct (build_payment_ok from_wallet to_address amount_xrp memo Ha Hm)
    as (tx & Hb & Hacc & Hdest & Hamt & _).
  py_unfold. rewrite Hb.
  assert (Hsub : forall more,
    omap (fun c => match c with
                   | CallSubmit tx _ =>
                       Some (tx_account tx, tx_destination tx, tx_amount tx)
                   | _ => None
                   end) (CallSubmit (TxPayment tx) from_wallet :: more)
    = (classic_address from_wallet, to_address,
       str_of_Z (amount_xrp * DROPS_PER_XRP))
      :: omap (fun c => match c with
                        | CallSubmit tx _ =>
                            Some (tx_account tx, tx_destination tx, tx_amount tx)
                        | _ => None
                        end) more).
  { intros more. cbn. rewrite Hacc, Hdest, Hamt. reflexivity. }
  destruct (net_submit (TxPayment tx) from_wallet (net w)) as [[resp | e] l1].
  2:{ do 2 eexists. split; [reflexivity |].
      eapply step_adds_calls; cbn [calls files]; [reflexivity .. | | reflexivity].
      rewrite Hsub. reflexivity. }
  destruct (decide (TransactionResult resp = Some "tesSUCCESS")) as [Hs | Hs].
  2:{ do 2 eexists. split; [reflexivity |].
      eapply step_adds_calls; cbn [calls files]; [reflexivity .. | | reflexivity].
      rewrite Hsub. reflexivity. }
  unfold result_hash_item. destruct (result_hash resp) as [h |].
  2:{ do 2 eexists. split; [reflexivity |].
      eapply step_adds_calls; cbn [calls files]; [reflexivity .. | | reflexivity].
      rewrite Hsub. reflexivity. }
  cbn [fst snd clock console calls files net].
  destruct (net_balance (classic_address from_wallet) l1) as [[bal | e] l2];
    [destruct (drops_to_xrp bal) |];
    do 2 eexists; (split; [reflexivity |]);
    (eapply step_adds_calls; cbn [calls files];
     [rewrite <- ?app_assoc; reflexivity | reflexivity | | reflexivity]);
    cbn [app]; rewrite Hsub; reflexivity.
Qed.

Lemma create_escrow_adds (from_wallet : Wallet) (to_address : string)
    (amount_xrp days_until_release : Z) (memo : pystr) (w : World L) :
  0 <= amount_xrp <= MAX_XRP -> Forall is_scalar memo ->
  exists r w1,
    create_escrow from_wallet to_address amount_xrp days_until_release memo w
    = (Ok r, w1)
    /\ step_adds w w1
         [(classic_address from_wallet, to_address,
           str_of_Z (amount_xrp * DROPS_PER_XRP))] [].
Proof.
  intros Ha Hm.
  destruct (build_escrow_ok from_wallet to_address amount_xrp days_until_release
              memo (clock w) Ha Hm) as (tx & Hb & Hacc & Hdest & Hamt & _).
  destruct (create_escrow_returns _ _ _ _ _ w _ Hb) as ([r Hr] & _).
  pose proof (create_escrow_calls _ _ _ _ _ w _ Hb) as Hc.
  destruct (create_escrow from_wallet to_address amount_xrp days_until_release
              memo w) as [r' w1] eqn:Erun.
  cbn [fst snd] in Hr, Hc. subst r'. exists r, w1. split; [reflexivity |].
  eapply step_adds_calls; [exact Hc | | | reflexivity].
  - revert Erun. py_unfold. rewrite Hb.
    destruct (net_submit (TxEscrowCreate tx) from_wallet (net w)) as [[resp | e] l1];
      [| intros [= _ <-]; reflexivity].
    destruct (decide (TransactionResult resp = Some "tesSUCCESS")) as [Hs | Hs];
      [| intros [= _ <-]; reflexivity].
    unfold result_hash_item. destruct (result_hash resp);
      [| intros [= _ <-]; reflexivity].
    cbn [fst snd clock console calls files net].
    destruct (datetime_fromtimestamp _); intros [= _ <-]; reflexivity.
  - cbn. rewrite Hacc, Hdest, Hamt. reflexivity.
Qed.

Lemma flow_memos_scalar :
  Forall is_scalar
    (pystr_of_string "Project #2025-001: Foundation Complete - $100,000 USD")
  /\ Forall is_scalar (pystr_of_string "Project #2025-001: Progress Payment #1")
  /\ Forall is_scalar
       (pystr_of_string "Project #2025-001: Concrete Work - Division 03").
Proof. repeat split; apply pystr_of_string_scalar; repeat constructor. Qed.

(** Carry a summary over statements that leave log and files alone. *)
Ltac adds_from w0 A :=
  match type of A with
  | step_adds ?wa ?wb ?subs ?fau =>
      let A' := fresh "A" in
      pose proof (step_adds_trans w0 wa wb _ _ _ _
                    (step_adds_same_log w0 wa eq_refl eq_refl) A) as A';
      cbn [app] in A'
  end.

(** The four ways the milestone steps can end. *)
Lemma milestone_steps_outcomes (owner_wallet gc_wallet sub_wallet : Wallet)
    (w : World L) :
  let run := milestone_steps owner_wallet gc_wallet sub_wallet w in
  let all_three := [escrow_step owner_wallet gc_wallet;
                    gc_payment_step owner_wallet gc_wallet;
                    sub_payment_step gc_wallet sub_wallet] in
  (fst run = Ok tt
   /\ step_adds w (snd run) [] [classic_address owner_wallet])
  \/ (fst run = Ok tt
      /\ step_adds w (snd run) [escrow_step owner_wallet gc_wallet]
                   [classic_address owner_wallet])
  \/ ((exists e, fst run = Raise e)
      /\ step_adds w (snd run) all_three [classic_address owner_wallet])
  \/ (fst run = Ok tt
      /\ submitted (snd run) = submitted w ++ all_three
      /\ faucet_requests (snd run)
         = faucet_requests w ++ [classic_address owner_wallet]
      /\ files (snd run)
         = files w ++ [wallet_file owner_wallet gc_wallet sub_wallet]).
Proof.
  intros run all_three. subst run all_three.
  destruct flow_memos_scalar as (M3 & M4 & M5).
  destruct (milestone_steps owner_wallet gc_wallet sub_wallet w) as [r w'] eqn:Erun.
  cbn [fst snd]. unfold milestone_steps, mbind, Py_bind in Erun.
  cbn [print time_sleep json_dump_to fst snd clock console calls files net] in Erun.
  (* Step 2 *)
  match type of Erun with
  | context [fund_wallet ?a ?W] =>
      destruct (fund_wallet_adds a W) as (funded & w1 & Ef & A1)
  end.
  rewrite Ef in Erun. adds_from w A1.
  destruct funded; cbn [negb] in Erun.
  2:{ injection Erun as <- <-. left. split; [reflexivity |].
      refine (step_adds_trans w w1 _ _ _ _ _ A (step_adds_same_log _ _ eq_refl eq_refl)). }
  (* Step 3 *)
  match type of Erun with
  | context [create_escrow ?a ?b ?c ?d ?m ?W] =>
      destruct (create_escrow_adds a b c d m W ltac:(unfold MAX_XRP; lia) M3)
        as (escrow_hash & w2 & Ee & A2)
  end.
  rewrite Ee in Erun. adds_from w1 A2.
  pose proof (step_adds_trans _ _ _ _ _ _ _ A A0) as A12. cbn [app] in A12.
  destruct (truthy_hash escrow_hash); cbn [negb] in Erun.
  2:{ injection Erun as <- <-. right. left. split; [reflexivity |].
      refine (step_adds_trans w w2 _ _ _ _ _ A12 (step_adds_same_log _ _ eq_refl eq_refl)). }
  clear Ef Ee A1 A2 A A0.
  (* Step 4 *)
  match type of Erun with
  | context [send_payment ?a ?b 25 ?m ?W] =>
      destruct (send_payment_adds a b 25 m W ltac:(unfold MAX_XRP; lia) M4)
        as (gc_payment_hash & w3 & Ep & A3)
  end.
  rewrite Ep in Erun. adds_from w2 A3.
  pose proof (step_adds_trans _ _ _ _ _ _ _ A12 A) as A123. cbn [app] in A123.
  clear Ep A3 A A12.
  (* Step 5 *)
  match type of Erun with
  | context [send_payment ?a ?b 10 ?m ?W] =>
      destruct (send_payment_adds a b 10 m W ltac:(unfold MAX_XRP; lia) M5)
        as (sub_payment_hash & w4 & Ep & A4)
  end.
  rewrite Ep in Erun. adds_from w3 A4.
  pose proof (step_adds_trans _ _ _ _ _ _ _ A123 A) as Aall. cbn [app] in Aall.
  clear Ep A4 A A123.
  change (str_of_Z (50 * DROPS_PER_XRP)) with "50000000" in Aall.
  change (str_of_Z (25 * DROPS_PER_XRP)) with "25000000" in Aall.
  change (str_of_Z (10 * DROPS_PER_XRP)) with "10000000" in Aall.
  fold (escrow_step owner_wallet gc_wallet) in Aall.
  fold (gc_payment_step owner_wallet gc_wallet) in Aall.
  fold (sub_payment_step gc_wallet sub_wallet) in Aall.
  (* Final balances *)
  match type of Erun with
  | context [get_balance owner_wallet ?W] =>
      destruct (get_balance_adds owner_wallet W) as (r5 & w5 & E5 & A5)
  end.
  rewrite E5 in Erun. adds_from w4 A5.
  pose proof (step_adds_trans _ _ _ _ _ _ _ Aall A) as Aall5.
  rewrite !app_nil_r in Aall5. clear E5 A5 A Aall.
  destruct r5 as [b5 | e5].
  2:{ injection Erun as <- <-. right. right. left. split; [eauto | exact Aall5]. }
  destruct (get_balance_adds gc_wallet w5) as (r6 & w6 & E6 & A6).
  rewrite E6 in Erun.
  pose proof (step_adds_trans _ _ _ _ _ _ _ Aall5 A6) as Aall6.
  rewrite !app_nil_r in Aall6. clear E6 A6 Aall5.
  destruct r6 as [b6 | e6].
  2:{ injection Erun as <- <-. right. right. left. split; [eauto | exact Aall6]. }
  destruct (get_balance_adds sub_wallet w6) as (r7 & w7 & E7 & A7).
  rewrite E7 in Erun.
  pose proof (step_adds_trans _ _ _ _ _ _ _ Aall6 A7) as Aall7.
  rewrite !app_nil_r in Aall7. clear E7 A7 Aall6.
  destruct r7 as [b7 | e7].
  2:{ injection Erun as <- <-. right. right. left. split; [eauto | exact Aall7]. }
  cbn [print] in Erun. injection Erun as <- <-.
  right. right. right. destruct Aall7 as (S7 & F7 & G7).
  split; [reflexivity |]. unfold submitted, faucet_requests in *.
  cbn [calls files]. rewrite G7. auto.
Qed.

(** The flow is its milestone steps, run on the wallets it created. *)
Lemma simulate_runs_milestone_steps (w : World L) :
  let '(owner_wallet, gc_wallet, sub_wallet, l3) := created_wallets (net w) in
  exists w0,
    simulate_construction_payment_flow w
    = milestone_steps owner_wallet gc_wallet sub_wallet w0
    /\ calls w0 = calls w /\ files w0 = files w /\ clock w0 = clock w
    /\ net w0 = l3.
Proof.
  unfold created_wallets, simulate_construction_payment_flow, create_wallet,
    Wallet_create, mbind, Py_bind, mret, Py_ret.
  cbn [print fst snd clock console calls files net].
  destruct (net_new_wallet (net w)) as [owner_wallet l1].
  cbn [print fst snd clock console calls files net].
  destruct (net_new_wallet l1) as [gc_wallet l2].
  cbn [print fst snd clock console calls files net].
  destruct (net_new_wallet l2) as [sub_wallet l3].
  cbn [print fst snd clock console calls files net].
  eexists. split; [reflexivity |]. cbn [calls files clock net]. auto.
Qed.

(** The four ways the whole flow can end. *)
Lemma simulate_outcomes (w : World L) :
  let run := simulate_construction_payment_flow w in
  let '(owner_wallet, gc_wallet, sub_wallet, _) := created_wallets (net w) in
  let all_three := [escrow_step owner_wallet gc_wallet;
                    gc_payment_step owner_wallet gc_wallet;
                    sub_payment_step gc_wallet sub_wallet] in
  (fst run = Ok tt
   /\ step_adds w (snd run) [] [classic_address owner_wallet])
  \/ (fst run = Ok tt
      /\ step_adds w (snd run) [escrow_step owner_wallet gc_wallet]
                   [classic_address owner_wallet])
  \/ ((exists e, fst run = Raise e)
      /\ step_adds w (snd run) all_three [classic_address owner_wallet])
  \/ (fst run = Ok tt
      /\ submitted (snd run) = submitted w ++ all_three
      /\ faucet_requests (snd run)
         = faucet_requests w ++ [classic_address owner_wallet]
      /\ files (snd run)
         = files w ++ [wallet_file owner_wallet gc_wallet sub_wallet]).
Proof.
  pose proof (simulate_runs_milestone_steps w) as Hrun.
  destruct (created_wallets (net w)) as [[[owner_wallet gc_wallet] sub_wallet] l3].
  destruct Hrun as (w0 & -> & Hc & Hf & _).
  pose proof (milestone_steps_outcomes owner_wallet gc_wallet sub_wallet w0) as Ho.
  cbv zeta in Ho |- *.
  assert (Hs : submitted w0 = submitted w) by (unfold submitted; rewrite Hc; reflexivity).
  assert (Hq : faucet_requests w0 = faucet_requests w)
    by (unfold faucet_requests; rewrite Hc; reflexivity).
  unfold step_adds in *. rewrite Hs, Hq, Hf in Ho. exact Ho.
Qed.

End FlowOutcome.

Section FlowProperties.
Context {L : Type} `{LedgerClient L}.

(** X6: whatever the ledger answers, the flow submits nothing, or the
    escrow alone, or the escrow and both payments, in this order.  It never
    submits a payment without the escrow before it, and never the first
    payment without the second. *)
Theorem X6_flow_submits_nothing_or_the_escrow_or_all_three (w : World L) :
  let run := simulate_construction_payment_flow w in
  let '(owner_wallet, gc_wallet, sub_wallet, _) := created_wallets (net w) in
  submitted (snd run) = submitted w
  \/ submitted (snd run) = submitted w ++ [escrow_step owner_wallet gc_wallet]
  \/ submitted (snd run)
     = submitted w ++ [escrow_step owner_wallet gc_wallet;
                       gc_payment_step owner_wallet gc_wallet;
                       sub_payment_step gc_wallet sub_wallet].
Proof.
  pose proof (simulate_outcomes w) as Ho. cbv zeta in Ho |- *.
  destruct (created_wallets (net w)) as [[[owner_wallet gc_wallet] sub_wallet] l3].
  destruct Ho as [(_ & S & _) | [(_ & S & _) | [(_ & S & _) | (_ & S & _)]]].
  - left. rewrite S, app_nil_r. reflexivity.
  - right. left. exact S.
  - right. right. exact S.
  - right. right. exact S.
Qed.

(** X7: on every run the flow asks the faucet exactly once, for the
    owner's address; the contractor's and the subcontractor's wallets are
    never funded from the faucet. *)
Theorem X7_flow_asks_the_faucet_once_for_the_owner (w : World L) :
  let run := simulate_construction_payment_flow w in
  let '(owner_wallet, _, _, _) := created_wallets (net w) in
  faucet_requests (snd run)
  = faucet_requests w ++ [classic_address owner_wallet].
Proof.
  pose proof (simulate_outcomes w) as Ho. cbv zeta in Ho |- *.
  destruct (created_wallets (net w)) as [[[owner_wallet gc_wallet] sub_wallet] l3].
  destruct Ho as [(_ & _ & F & _) | [(_ & _ & F & _)
                  | [(_ & _ & F & _) | (_ & _ & F & _)]]]; exact F.
Qed.

(** X8: the flow writes at most one file, simulation_wallets.json with the
    address and seed of the three wallets, and only when it completes: all
    three transactions have then been submitted and the flow returns
    normally.  On every other run no file is written. *)
Theorem X8_wallet_file_is_written_only_on_completion (w : World L) :
  let run := simulate_construction_payment_flow w in
  let '(owner_wallet, gc_wallet, sub_wallet, _) := created_wallets (net w) in
  files (snd run) = files w
  \/ (files (snd run)
      = files w ++ [wallet_file owner_wallet gc_wallet sub_wallet]
      /\ fst run = Ok tt
      /\ submitted (snd run)
         = submitted w ++ [escrow_step owner_wallet gc_wallet;
                           gc_payment_step owner_wallet gc_wallet;
                           sub_payment_step gc_wallet sub_wallet]).
Proof.
  pose proof (simulate_outcomes w) as Ho. cbv zeta in Ho |- *.
  destruct (created_wallets (net w)) as [[[owner_wallet gc_wallet] sub_wallet] l3].
  destruct Ho as [(_ & _ & _ & G) | [(_ & _ & _ & G)
                  | [(_ & _ & _ & G) | (R & S & _ & G)]]]; auto.
Qed.

(** X9: an exception escapes the flow only from the final balance reads:
    when the flow raises, the escrow and both payments have been submitted
    and the wallet file has not been written. *)
Theorem X9_flow_raises_only_after_all_three_submissions
    (w : World L) (e : exn) :
  fst (simulate_construction_payment_flow w) = Raise e ->
  let run := simulate_construction_payment_flow w in
  let '(owner_wallet, gc_wallet, sub_wallet, _) := created_wallets (net w) in
  submitted (snd run)
  = submitted w ++ [escrow_step owner_wallet gc_wallet;
                    gc_payment_step owner_wallet gc_wallet;
                    sub_payment_step gc_wallet sub_wallet]
  /\ files (snd run) = files w.
Proof.
  intros Hr. pose proof (simulate_outcomes w) as Ho. cbv zeta in Ho |- *.
  destruct (created_wallets (net w)) as [[[owner_wallet gc_wallet] sub_wallet] l3].
  destruct Ho as [(R & _) | [(R & _) | [(_ & S & _ & G) | (R & _)]]];
    try congruence.
  split; assumption.
Qed.

(** [fund_wallet] when the faucet does not answer 200. *)
Lemma fund_wallet_not_granted (wallet : Wallet) (w : World L) :
  fst (net_faucet (classic_address wallet) (net w)) <> Ok 200 ->
  exists w1,
    fund_wallet wallet w = (Ok false, w1)
    /\ calls w1 = calls w ++ [CallFaucet (classic_address wallet)]
    /\ files w1 = files w /\ clock w1 = clock w.
Proof.
  intros Hn. py_unfold.
  destruct (net_faucet (classic_address wallet) (net w)) as [[status | e] l1];
    cbn [fst] in Hn.
  - destruct (Z.eqb_spec status 200) as [-> | Hs]; [contradiction |].
    eexists. split; [reflexivity |]. auto.
  - eexists. split; [reflexivity |]. auto.
Qed.

(** X10: when the faucet does not answer the funding request with status
    200, the flow ends after that one request: it returns normally, submits
    nothing, writes no file and its last line reports that the owner wallet
    could not be funded. *)
Theorem X10_flow_stops_when_the_faucet_does_not_grant (w : World L) :
  let '(owner_wallet, _, _, l3) := created_wallets (net w) in
  fst (net_faucet (classic_address owner_wallet) l3) <> Ok 200 ->
  let run := simulate_construction_payment_flow w in
  fst run = Ok tt
  /\ calls (snd run) = calls w ++ [CallFaucet (classic_address owner_wallet)]
  /\ files (snd run) = files w
  /\ last (console (snd run))
     = Some "❌ Simulation failed - could not fund owner wallet".
Proof.
  pose proof (simulate_runs_milestone_steps w) as Hrun.
  destruct (created_wallets (net w)) as [[[owner_wallet gc_wallet] sub_wallet] l3].
  destruct Hrun as (w0 & Hrun & Hc & Hf & _ & Hn).
  intros Hfaucet run. subst run. rewrite Hrun.
  destruct (fund_wallet_not_granted owner_wallet
              (snd (print (nl +:+ "📋 Step 2: Funding Owner Wallet from Testnet Faucet") w0)))
    as (w1 & Ef & Hc1 & Hf1 & _).
  { cbn [print snd net]. rewrite Hn. exact Hfaucet. }
  rewrite (funding_failure_halts owner_wallet gc_wallet sub_wallet w0 w1 Ef).
  cbn [print fst snd console calls files].
  rewrite Hc1, Hf1. cbn [print snd calls files]. rewrite Hc, Hf.
  repeat split. apply last_snoc.
Qed.

(** X11: when [create_escrow] hands back [None] or an empty hash at step 3,
    the flow ends there: it returns normally, the escrow is the only
    transaction submitted, no file is written and its last line reports
    that the escrow could not be created. *)
Theorem X11_flow_stops_when_the_escrow_hash_is_missing_or_empty
    (owner_wallet gc_wallet sub_wallet : Wallet) (w w1 w2 : World L)
    (escrow_hash : option string) :
  fund_wallet owner_wallet
    (snd (print (nl +:+ "📋 Step 2: Funding Owner Wallet from Testnet Faucet") w))
  = (Ok true, w1) ->
  create_escrow owner_wallet (classic_address gc_wallet) 50 7
    (pystr_of_string "Project #2025-001: Foundation Complete - $100,000 USD")
    (snd (print (nl +:+ "📋 Step 3: Owner Creates Escrow for GC (Foundation Milestone)") w1))
  = (Ok escrow_hash, w2) ->
  truthy_hash escrow_hash = false ->
  let run := milestone_steps owner_wallet gc_wallet sub_wallet w in
  fst run = Ok tt
  /\ submitted (snd run) = submitted w ++ [escrow_step owner_wallet gc_wallet]
  /\ files (snd run) = files w
  /\ last (console (snd run))
     = Some "❌ Simulation failed - could not create escrow".
Proof.
  intros Ef Ee Hh run. subst run.
  rewrite (escrow_failure_halts owner_wallet gc_wallet sub_wallet w w1 w2
             escrow_hash Ef Ee Hh).
  destruct (fund_wallet_adds owner_wallet
              (snd (print (nl +:+ "📋 Step 2: Funding Owner Wallet from Testnet Faucet") w)))
    as (b & w1' & Ef' & (S1 & _ & G1)).
  rewrite Ef in Ef'. injection Ef' as <- <-.
  destruct flow_memos_scalar as (M3 & _).
  destruct (create_escrow_adds owner_wallet (classic_address gc_wallet) 50 7 _
              (snd (print (nl +:+ "📋 Step 3: Owner Creates Escrow for GC (Foundation Milestone)") w1))
              ltac:(unfold MAX_XRP; lia) M3)
    as (h & w2' & Ee' & (S2 & _ & G2)).
  rewrite Ee in Ee'. injection Ee' as <- <-.
  unfold submitted in *. cbn [print fst snd console calls files] in *.
  rewrite S2, S1, G2, G1, app_nil_r.
  repeat split. apply last_snoc.
Qed.

End FlowProperties.

(** ** Concrete instances *)

Lemma X5_witness :
  let w := initial_world 1700000000 success_script in
  let tx := TxPayment (Payment.mk "rOwner" "rContractor" "25000000" None) in
  let after := snd (send_payment owner0 "rContractor" 25 [] w) in
  (forall resp l1 h,
      net_submit tx owner0 (net w) = (Ok resp, l1) ->
      TransactionResult resp = Some "tesSUCCESS" ->
      result_hash resp = Some h ->
      calls after = calls w ++ [CallSubmit tx owner0;
                                CallBalance (classic_address owner0)])
  /\ (forall resp l1,
         net_submit tx owner0 (net w) = (Ok resp, l1) ->
         TransactionResult resp <> Some "tesSUCCESS" ->
         calls after = calls w ++ [CallSubmit tx owner0]
         /\ net after = l1)
  /\ (forall e l1,
         net_submit tx owner0 (net w) = (Raise e, l1) ->
         calls after = calls w ++ [CallSubmit tx owner0]
         /\ net after = l1).
Proof.
  apply (X5_send_payment_reads_the_balance_only_after_success owner0
           "rContractor" 25 [] (initial_world 1700000000 success_script)).
  vm_compute. reflexivity.
Defined.

Lemma X9_witness :
  let w := initial_world 1700000000 (fresh_ledger 60000000 10) in
  let run := simulate_construction_payment_flow w in
  submitted (snd run)
  = submitted w ++ [escrow_step owner0 gc0; gc_payment_step owner0 gc0;
                    sub_payment_step gc0 sub0]
  /\ files (snd run) = files w.
Proof.
  assert (Hr : fst (simulate_construction_payment_flow
                      (initial_world 1700000000 (fresh_ledger 60000000 10)))
               = Raise (Exception "XRPLRequestFailureException"
                                  "Account not found."))
    by (vm_compute; reflexivity).
  exact (X9_flow_raises_only_after_all_three_submissions
           (initial_world 1700000000 (fresh_ledger 60000000 10))
           (Exception "XRPLRequestFailureException" "Account not found.") Hr).
Defined.

Lemma X10_witness :
  let w := initial_world 1700000000 faucet_down_script in
  let run := simulate_construction_payment_flow w in
  fst run = Ok tt
  /\ calls (snd run) = calls w ++ [CallFaucet (classic_address owner0)]
  /\ files (snd run) = files w
  /\ last (console (snd run))
     = Some "❌ Simulation failed - could not fund owner wallet".
Proof.
  assert (Hn : fst (net_faucet (classic_address owner0) faucet_down_script)
               <> Ok 200)
    by (vm_compute; discriminate).
  exact (X10_flow_stops_when_the_faucet_does_not_grant
           (initial_world 1700000000 faucet_down_script) Hn).
Defined.

Lemma X11_witness :
  let w := initial_world 1700000000 empty_hash_script in
  let run := milestone_steps owner0 gc0 sub0 w in
  fst run = Ok tt
  /\ submitted (snd run) = submitted w ++ [escrow_step owner0 gc0]
  /\ files (snd run) = files w
  /\ last (console (snd run))
     = Some "❌ Simulation failed - could not create escrow".
Proof.
  pose (w := initial_world 1700000000 empty_hash_script).
  pose (w1 := snd (fund_wallet owner0
                     (snd (print (nl +:+ "📋 Step 2: Funding Owner Wallet from Testnet Faucet") w)))).
  pose (w2 := snd (create_escrow owner0 (classic_address gc0) 50 7
                     (pystr_of_string "Project #2025-001: Foundation Complete - $100,000 USD")
                     (snd (print (nl +:+ "📋 Step 3: Owner Creates Escrow for GC (Foundation Milestone)") w1)))).
  apply (X11_flow_stops_when_the_escrow_hash_is_missing_or_empty
           owner0 gc0 sub0 w w1 w2 (Some "")).
  - vm_compute. reflexivity.
  - vm_compute. reflexivity.
  - reflexivity.
Defined.

(** ** The memo fields *)

Lemma hex_digit_lower (n : Z) : 0 <= n < 16 -> is_lower_hex (hex_digit n) = true.
Proof.
  intros Hn. destruct n as [| p | p]; [reflexivity | | lia].
  do 4 (try destruct p as [p | p |]); try reflexivity; lia.
Qed.

Lemma bytes_hex_lower (bs : list Z) :
  Forall is_byte bs ->
  lower_hex_pairs (bytes_hex bs) = true
  /\ String.length (bytes_hex bs) = (2 * length bs)%nat.
Proof.
  induction 1 as [| b bs Hb _ [IH1 IH2]]; [split; reflexivity |].
  unfold is_byte in Hb. cbn [bytes_hex lower_hex_pairs String.length length].
  pose proof (Z.mod_pos_bound b 16 ltac:(lia)) as Hm.
  assert (Hd : 0 <= b / 16 < 16)
    by (split; [apply Z.div_pos; lia | apply Z.div_lt_upper_bound; lia]).
  rewrite !hex_digit_lower, IH1, IH2 by assumption. split; [reflexivity | lia].
Qed.

Lemma utf8_encode_bytes (s : pystr) (bs : list Z) :
  utf8_encode s = Ok bs -> Forall is_byte bs.
Proof.
  intros E. destruct (utf8_roundtrip s (utf8_encode_ok_scalar s bs E))
    as (bs' & E' & B & _).
  congruence.
Qed.

(** X12: every memo field written by the two builders is hexadecimal text
    as the ledger expects it: MemoData consists of pairs of the digits
    0-9a-f, two for each byte of the UTF-8 encoding of the memo, and
    MemoType is the fixed hexadecimal form of "construction-payment" for a
    payment and of "construction-escrow" for an escrow. *)
Theorem X12_memo_fields_are_lowercase_hexadecimal
    (from_wallet : Wallet) (to_address : string)
    (amount_xrp days_until_release current_time : Z) (memo : pystr) :
  let well_formed (tag : string) (tx : Transaction) :=
    forall ms, tx_memos tx = Some ms ->
      exists m bs, ms = [m]
        /\ utf8_encode memo = Ok bs
        /\ lower_hex_pairs (MemoData m) = true
        /\ String.length (MemoData m) = (2 * length bs)%nat
        /\ MemoType m = tag in
  (forall tx,
      build_payment from_wallet to_address amount_xrp memo = Ok tx ->
      well_formed "636f6e737472756374696f6e2d7061796d656e74" tx)
  /\ (forall tx,
         build_escrow from_wallet to_address amount_xrp days_until_release memo
                      current_time = Ok tx ->
         well_formed "636f6e737472756374696f6e2d657363726f77" tx).
Proof.
  intros well_formed. subst well_formed. split.
  - intros tx. unfold build_payment.
    destruct (xrp_to_drops amount_xrp) as [amount | e];
      cbn [mbind res_bind]; [| discriminate].
    destruct (truthy_pystr memo); [| intros [= <-] ms [=]].
    destruct (utf8_encode memo) as [bs | e] eqn:Ee;
      cbn [fmap res_fmap mbind res_bind]; [| discriminate].
    replace (bytes_hex <$> utf8_encode (pystr_of_string "construction-payment"))
      with (Ok "636f6e737472756374696f6e2d7061796d656e74" : res string)
      by (vm_compute; reflexivity).
    cbn [mbind res_bind mret res_ret]. intros [= <-] ms [= <-].
    destruct (bytes_hex_lower bs (utf8_encode_bytes memo bs Ee)) as [Hh Hl].
    eexists _, bs. repeat split; assumption.
  - intros tx. unfold build_escrow.
    destruct (xrp_to_drops amount_xrp) as [amount | e];
      cbn [mbind res_bind]; [| discriminate].
    destruct (truthy_pystr memo); [| intros [= <-] ms [=]].
    destruct (utf8_encode memo) as [bs | e] eqn:Ee;
      cbn [fmap res_fmap mbind res_bind]; [| discriminate].
    replace (bytes_hex <$> utf8_encode (pystr_of_string "construction-escrow"))
      with (Ok "636f6e737472756374696f6e2d657363726f77" : res string)
      by (vm_compute; reflexivity).
    cbn [mbind res_bind mret res_ret]. intros [= <-] ms [= <-].
    destruct (bytes_hex_lower bs (utf8_encode_bytes memo bs Ee)) as [Hh Hl].
    eexists _, bs. repeat split; assumption.
Qed.
